(** * PermafrostRiskFHE: the measurement registry and its decryption callbacks

    A shallow embedding of the Solidity contract [PermafrostRiskFHE]
    (src/frontend/web/src/App.tsx, lines 792-949) and the properties of its
    measurement lifecycle, request correlation, zone aggregation and
    classifier.

    Conventions of the embedding:
    - [uint256], [int32] and [bytes32] values are integers of [Z]; the only
      arithmetic the contract does on them is [measurementCount += 1], whose
      checked overflow (Solidity 0.8) is written out;
    - a Solidity [mapping] is a [gmap] read through a default, an absent key
      reading as the zero value of its type;
    - a function that can revert returns [result]; a reverted call leaves the
      state it was called in (see [step]);
    - the FHE library, [keccak256] and [abi.decode] are not part of the
      contract: they are the methods of the class [Externals]; a call of
      [FHE.requestDecryption] returns, and the request identifier it returns
      is an argument of the function that makes the call. *)

From Stdlib Require Import ZArith String List Lia.
From Stdlib Require Import Strings.Byte Strings.Ascii.
From stdpp Require Import gmap strings list fin_maps.
Import ListNotations.

Local Open Scope Z_scope.

(** ** Machine integers *)

Module Solidity.

Definition uint256_max : Z := 2 ^ 256 - 1.
Definition uint32_modulus : Z := 2 ^ 32.

(** Panic codes of the compiler: checked arithmetic and array indexing. *)
Definition panic_overflow : Z := 17. (* 0x11 *)
Definition panic_index : Z := 50.    (* 0x32 *)

End Solidity.

(** ** Reverts and the result monad *)

Inductive revert : Type :=
| Require_failed (reason : string) (* require(cond, reason) and revert(reason) *)
| Panic (code : Z)                 (* compiler-inserted checks *)
| InvalidProof                     (* FHE.checkSignatures reverted *)
| DecodeError.                     (* abi.decode reverted *)

Inductive result (A : Type) : Type :=
| Ok (a : A)
| Err (e : revert).

Arguments Ok {A} a.
Arguments Err {A} e.

Definition rbind {A B : Type} (m : result A) (f : A -> result B) : result B :=
  match m with
  | Ok a => f a
  | Err e => Err e
  end.

#[global] Instance result_ret : MRet result := fun A a => Ok a.
#[global] Instance result_bind : MBind result :=
  fun A B f m => rbind m f.

Definition require (cond : bool) (reason : string) : result unit :=
  if cond then Ok tt else Err (Require_failed reason).

Definition isOk {A : Type} (r : result A) : bool :=
  match r with Ok _ => true | Err _ => false end.

(** The revert reasons of the contract. *)
Definition AlreadyDecrypted : revert := Require_failed "Already decrypted".
Definition InvalidRequest : revert := Require_failed "Invalid request".
Definition ZoneNotFound : revert := Require_failed "Zone not found".

(** ** The external collaborators *)

(** An [euint32] is a [bytes32] handle; the contract never looks inside. *)
Abbreviation euint32 := Z (only parsing).
Abbreviation bytes := (list byte) (only parsing).

(** The callback selector handed to [FHE.requestDecryption]. *)
Inductive selector : Type :=
| Sel_decryptMeasurement
| Sel_decryptZoneRisk.

(** What the contract imports: the FHE library's constant and addition on
    handles and its signature check, the hash of a packed string and the
    two ABI decoders the callbacks use, [None] standing for the decoder's
    revert and the decoded values being of the decoder's type ([int32],
    [uint32]). *)
Class Externals : Type := {
  asEuint32 : Z -> euint32;
  add : euint32 -> euint32 -> euint32;
  checkSignatures : Z -> bytes -> bytes -> bool;
  keccak256 : string -> Z;
  abi_decode_int32_array : bytes -> option (list Z);
  abi_decode_uint32 : bytes -> option Z
}.

(** [FHE.isInitialized]: a handle is initialised when it is not the zero
    word, which is what a never-written storage slot reads as. *)
Definition isInitialized (v : euint32) : bool := negb (v =? 0).

Definition toBytes32 (v : euint32) : Z := v.

(** A well-behaved engine: the handles it makes are never the zero word and
    hide a 32-bit plaintext that addition adds with wrap-around. *)
Class Sound (E : Externals) : Type := {
  decrypt : euint32 -> Z;
  asEuint32_initialized : forall n, isInitialized (asEuint32 n) = true;
  add_initialized : forall a b, isInitialized (add a b) = true;
  decrypt_asEuint32 :
    forall n, 0 <= n < Solidity.uint32_modulus -> decrypt (asEuint32 n) = n;
  decrypt_add :
    forall a b, isInitialized a = true -> isInitialized b = true ->
      decrypt (add a b) = (decrypt a + decrypt b) mod Solidity.uint32_modulus
}.

(** ** Storage *)

Record EncryptedMeasurement : Type := {
  em_id : Z;
  encryptedTemperature : euint32;
  encryptedGasLevel : euint32;
  timestamp : Z
}.

Record DecryptedMeasurement : Type := {
  temperature : Z;
  gasLevel : Z;
  isDecrypted : bool
}.

Inductive Event : Type :=
| MeasurementSubmitted (id : Z) (time : Z)
| DecryptionRequested (id : Z)
| MeasurementDecrypted (id : Z).

(** One call of [FHE.requestDecryption]: the identifier the engine returned,
    the ciphertexts and the callback selector it was given. *)
Record OracleRequest : Type := {
  or_requestId : Z;
  or_ciphertexts : list Z;
  or_selector : selector
}.

Record State : Type := {
  measurementCount : Z;
  encryptedMeasurements : gmap Z EncryptedMeasurement;
  decryptedMeasurements : gmap Z DecryptedMeasurement;
  encryptedZoneRisk : gmap string Z;
  zoneList : list string;
  requestToMeasurementId : gmap Z Z;
  events : list Event;
  oracleRequests : list OracleRequest
}.

Definition zeroEncrypted : EncryptedMeasurement :=
  {| em_id := 0; encryptedTemperature := 0; encryptedGasLevel := 0;
     timestamp := 0 |}.

Definition zeroDecrypted : DecryptedMeasurement :=
  {| temperature := 0; gasLevel := 0; isDecrypted := false |}.

(** The state of a freshly deployed contract. *)
Definition init : State :=
  {| measurementCount := 0;
     encryptedMeasurements := ∅;
     decryptedMeasurements := ∅;
     encryptedZoneRisk := ∅;
     zoneList := [];
     requestToMeasurementId := ∅;
     events := [];
     oracleRequests := [] |}.

(** Reads of the four mappings. *)
Definition encryptedMeasurementAt (s : State) (k : Z) : EncryptedMeasurement :=
  default zeroEncrypted (encryptedMeasurements s !! k).

Definition decryptedMeasurementAt (s : State) (k : Z) : DecryptedMeasurement :=
  default zeroDecrypted (decryptedMeasurements s !! k).

Definition zoneRiskAt (s : State) (zone : string) : euint32 :=
  default 0 (encryptedZoneRisk s !! zone).

Definition requestTargetAt (s : State) (requestId : Z) : Z :=
  default 0 (requestToMeasurementId s !! requestId).

(** Writes. *)
Definition setMeasurementCount (n : Z) (s : State) : State :=
  {| measurementCount := n;
     encryptedMeasurements := encryptedMeasurements s;
     decryptedMeasurements := decryptedMeasurements s;
     encryptedZoneRisk := encryptedZoneRisk s;
     zoneList := zoneList s;
     requestToMeasurementId := requestToMeasurementId s;
     events := events s;
     oracleRequests := oracleRequests s |}.

Definition setEncryptedMeasurement (k : Z) (m : EncryptedMeasurement)
    (s : State) : State :=
  {| measurementCount := measurementCount s;
     encryptedMeasurements := <[k := m]> (encryptedMeasurements s);
     decryptedMeasurements := decryptedMeasurements s;
     encryptedZoneRisk := encryptedZoneRisk s;
     zoneList := zoneList s;
     requestToMeasurementId := requestToMeasurementId s;
     events := events s;
     oracleRequests := oracleRequests s |}.

Definition setDecryptedMeasurement (k : Z) (m : DecryptedMeasurement)
    (s : State) : State :=
  {| measurementCount := measurementCount s;
     encryptedMeasurements := encryptedMeasurements s;
     decryptedMeasurements := <[k := m]> (decryptedMeasurements s);
     encryptedZoneRisk := encryptedZoneRisk s;
     zoneList := zoneList s;
     requestToMeasurementId := requestToMeasurementId s;
     events := events s;
     oracleRequests := oracleRequests s |}.

Definition setZoneRisk (zone : string) (v : euint32) (s : State) : State :=
  {| measurementCount := measurementCount s;
     encryptedMeasurements := encryptedMeasurements s;
     decryptedMeasurements := decryptedMeasurements s;
     encryptedZoneRisk := <[zone := v]> (encryptedZoneRisk s);
     zoneList := zoneList s;
     requestToMeasurementId := requestToMeasurementId s;
     events := events s;
     oracleRequests := oracleRequests s |}.

Definition pushZone (zone : string) (s : State) : State :=
  {| measurementCount := measurementCount s;
     encryptedMeasurements := encryptedMeasurements s;
     decryptedMeasurements := decryptedMeasurements s;
     encryptedZoneRisk := encryptedZoneRisk s;
     zoneList := zoneList s ++ [zone];
     requestToMeasurementId := requestToMeasurementId s;
     events := events s;
     oracleRequests := oracleRequests s |}.

Definition setRequestTarget (requestId target : Z) (s : State) : State :=
  {| measurementCount := measurementCount s;
     encryptedMeasurements := encryptedMeasurements s;
     decryptedMeasurements := decryptedMeasurements s;
     encryptedZoneRisk := encryptedZoneRisk s;
     zoneList := zoneList s;
     requestToMeasurementId := <[requestId := target]> (requestToMeasurementId s);
     events := events s;
     oracleRequests := oracleRequests s |}.

Definition emit (e : Event) (s : State) : State :=
  {| measurementCount := measurementCount s;
     encryptedMeasurements := encryptedMeasurements s;
     decryptedMeasurements := decryptedMeasurements s;
     encryptedZoneRisk := encryptedZoneRisk s;
     zoneList := zoneList s;
     requestToMeasurementId := requestToMeasurementId s;
     events := events s ++ [e];
     oracleRequests := oracleRequests s |}.

Definition recordOracleRequest (r : OracleRequest) (s : State) : State :=
  {| measurementCount := measurementCount s;
     encryptedMeasurements := encryptedMeasurements s;
     decryptedMeasurements := decryptedMeasurements s;
     encryptedZoneRisk := encryptedZoneRisk s;
     zoneList := zoneList s;
     requestToMeasurementId := requestToMeasurementId s;
     events := events s;
     oracleRequests := oracleRequests s ++ [r] |}.

(** The transaction context: [msg.sender] and [block.timestamp]. *)
Record Env : Type := {
  msg_sender : Z;
  block_timestamp : Z
}.

(** ** The contract *)

(** [assignZone] (lines 945-949). *)
Definition assignZone (temperature gasLevel : Z) : string :=
  if temperature <? -2 then "LowRisk"
  else if temperature <? 2 then "MediumRisk"
  else "HighRisk".

Definition bytes32ToUint (b : Z) : Z := b.

(** [results[i]] on a memory array: out of range is [Panic(0x32)]. *)
Definition index (results : list Z) (i : nat) : result Z :=
  match results !! i with
  | Some v => Ok v
  | None => Err (Panic Solidity.panic_index)
  end.

Section Contract.

Context {E : Externals}.

(** The modifier [onlyResearcher] (lines 825-827): its body is the
    placeholder alone. *)
Definition onlyResearcher {A : Type} (env : Env) (measurementId : Z)
    (body : result A) : result A :=
  body.

(** [submitEncryptedMeasurement] (lines 829-850). *)
Definition submitEncryptedMeasurement (env : Env)
    (encTemperature encGasLevel : euint32) (s : State) : result State :=
  (if Solidity.uint256_max <? measurementCount s + 1
         then Err (Panic Solidity.panic_overflow) else Ok tt) ;;
  let s := setMeasurementCount (measurementCount s + 1) s in
  let newId := measurementCount s in
  let s := setEncryptedMeasurement newId
             {| em_id := newId;
                encryptedTemperature := encTemperature;
                encryptedGasLevel := encGasLevel;
                timestamp := block_timestamp env |} s in
  let s := setDecryptedMeasurement newId
             {| temperature := 0; gasLevel := 0; isDecrypted := false |} s in
  Ok (emit (MeasurementSubmitted newId (block_timestamp env)) s).

(** [requestMeasurementDecryption] (lines 852-864); [reqId] is what
    [FHE.requestDecryption] returned. *)
Definition requestMeasurementDecryption (env : Env) (reqId : Z)
    (measurementId : Z) (s : State) : result State :=
  onlyResearcher env measurementId (
    let measurement := encryptedMeasurementAt s measurementId in
    require (negb (isDecrypted (decryptedMeasurementAt s measurementId)))
            "Already decrypted" ;;
    let ciphertexts := [toBytes32 (encryptedTemperature measurement);
                        toBytes32 (encryptedGasLevel measurement)] in
    let s := recordOracleRequest
               {| or_requestId := reqId; or_ciphertexts := ciphertexts;
                  or_selector := Sel_decryptMeasurement |} s in
    let s := setRequestTarget reqId measurementId s in
    Ok (emit (DecryptionRequested measurementId) s)).

(** The zone bookkeeping of [decryptMeasurement] (lines 885-890): create
    the bucket and list entry when the bucket is not initialised, then add
    one. *)
Definition contribute (zone : string) (s : State) : State :=
  let s := if negb (isInitialized (zoneRiskAt s zone))
           then pushZone zone (setZoneRisk zone (asEuint32 0) s)
           else s in
  setZoneRisk zone (add (zoneRiskAt s zone) (asEuint32 1)) s.

(** [decryptMeasurement] (lines 866-893). *)
Definition decryptMeasurement (env : Env) (requestId : Z)
    (cleartexts proof : bytes) (s : State) : result State :=
  let measurementId := requestTargetAt s requestId in
  require (negb (measurementId =? 0)) "Invalid request" ;;
  (if checkSignatures requestId cleartexts proof
         then Ok tt else Err InvalidProof) ;;
  results ← (match abi_decode_int32_array cleartexts with
               | Some r => Ok r
               | None => Err DecodeError
               end);
  r0 ← index results 0;
  r1 ← index results 1;
  let dMeasurement :=
    {| temperature := r0; gasLevel := r1; isDecrypted := true |} in
  let s := setDecryptedMeasurement measurementId dMeasurement s in
  let zone := assignZone (temperature dMeasurement) (gasLevel dMeasurement) in
  let s := contribute zone s in
  Ok (emit (MeasurementDecrypted measurementId) s).

(** The state a successful [decryptMeasurement] ends in. *)
Definition decrypted_state (measurementId t g : Z) (s : State) : State :=
  emit (MeasurementDecrypted measurementId)
    (contribute (assignZone t g)
       (setDecryptedMeasurement measurementId
          {| temperature := t; gasLevel := g; isDecrypted := true |} s)).

(** The reverse index that the zone list stands for: each label with the
    hash [getZoneFromHash] computes for it. *)
Definition reverseIndex (s : State) : list (Z * string) :=
  map (fun zone => (bytes32ToUint (keccak256 zone), zone)) (zoneList s).

(** [getDecryptedMeasurement] (lines 895-902). *)
Definition getDecryptedMeasurement (measurementId : Z) (s : State)
    : Z * Z * bool :=
  let m := decryptedMeasurementAt s measurementId in
  (temperature m, gasLevel m, isDecrypted m).

(** [getEncryptedZoneRisk] (lines 904-906). *)
Definition getEncryptedZoneRisk (zone : string) (s : State) : euint32 :=
  zoneRiskAt s zone.

(** [requestZoneRiskDecryption] (lines 908-917). *)
Definition requestZoneRiskDecryption (env : Env) (reqId : Z)
    (zone : string) (s : State) : result State :=
  let risk := zoneRiskAt s zone in
  require (isInitialized risk) "Zone not found" ;;
  let ciphertexts := [toBytes32 risk] in
  let s := recordOracleRequest
             {| or_requestId := reqId; or_ciphertexts := ciphertexts;
                or_selector := Sel_decryptZoneRisk |} s in
  Ok (setRequestTarget reqId (bytes32ToUint (keccak256 zone)) s).

(** The loop of [getZoneFromHash] (lines 936-943) over the list from
    index [i] on. *)
Fixpoint getZoneFromHash_from (hash : Z) (zones : list string)
    : result string :=
  match zones with
  | [] => Err (Require_failed "Zone not found")
  | zone :: rest =>
      if bytes32ToUint (keccak256 zone) =? hash then Ok zone
      else getZoneFromHash_from hash rest
  end.

Definition getZoneFromHash (hash : Z) (s : State) : result string :=
  getZoneFromHash_from hash (zoneList s).

(** The locals of [decryptZoneRisk] (lines 919-930): the zone found and
    the decoded value. *)
Definition decryptZoneRisk_locals (requestId : Z) (cleartexts proof : bytes)
    (s : State) : result (string * Z) :=
  let zoneHash := requestTargetAt s requestId in
  zone ← getZoneFromHash zoneHash s;
  (if checkSignatures requestId cleartexts proof
         then Ok tt else Err InvalidProof) ;;
  riskValue ← (match abi_decode_uint32 cleartexts with
                 | Some v => Ok v
                 | None => Err DecodeError
                 end);
  Ok (zone, riskValue).

(** [decryptZoneRisk]: the function ends after the decoding; it stores,
    emits and returns nothing. *)
Definition decryptZoneRisk (env : Env) (requestId : Z)
    (cleartexts proof : bytes) (s : State) : result State :=
  decryptZoneRisk_locals requestId cleartexts proof s ;;
  Ok s.

(** *** Transactions *)

Inductive Call : Type :=
| Call_submitEncryptedMeasurement (encTemperature encGasLevel : euint32)
| Call_requestMeasurementDecryption (reqId measurementId : Z)
| Call_decryptMeasurement (requestId : Z) (cleartexts proof : bytes)
| Call_getDecryptedMeasurement (measurementId : Z)
| Call_getEncryptedZoneRisk (zone : string)
| Call_requestZoneRiskDecryption (reqId : Z) (zone : string)
| Call_decryptZoneRisk (requestId : Z) (cleartexts proof : bytes).

Inductive Return : Type :=
| Ret_none
| Ret_measurement (temperature gasLevel : Z) (isDecrypted : bool)
| Ret_handle (v : euint32).

Definition execute (env : Env) (c : Call) (s : State)
    : result (State * Return) :=
  match c with
  | Call_submitEncryptedMeasurement t g =>
      s' ← submitEncryptedMeasurement env t g s; Ok (s', Ret_none)
  | Call_requestMeasurementDecryption reqId measurementId =>
      s' ← requestMeasurementDecryption env reqId measurementId s;
      Ok (s', Ret_none)
  | Call_decryptMeasurement requestId cleartexts proof =>
      s' ← decryptMeasurement env requestId cleartexts proof s;
      Ok (s', Ret_none)
  | Call_getDecryptedMeasurement measurementId =>
      let '(t, g, d) := getDecryptedMeasurement measurementId s in
      Ok (s, Ret_measurement t g d)
  | Call_getEncryptedZoneRisk zone =>
      Ok (s, Ret_handle (getEncryptedZoneRisk zone s))
  | Call_requestZoneRiskDecryption reqId zone =>
      s' ← requestZoneRiskDecryption env reqId zone s; Ok (s', Ret_none)
  | Call_decryptZoneRisk requestId cleartexts proof =>
      s' ← decryptZoneRisk env requestId cleartexts proof s;
      Ok (s', Ret_none)
  end.

(** A transaction that reverts changes nothing. *)
Definition step (env : Env) (c : Call) (s : State) : State :=
  match execute env c s with
  | Ok (s', _) => s'
  | Err _ => s
  end.

Fixpoint run (txs : list (Env * Call)) (s : State) : State :=
  match txs with
  | [] => s
  | (env, c) :: rest => run rest (step env c s)
  end.

(** The same transactions, sent by other accounts. *)
Definition resend (who : Z -> Z) (tx : Env * Call) : Env * Call :=
  ({| msg_sender := who (msg_sender (fst tx));
      block_timestamp := block_timestamp (fst tx) |}, snd tx).

(** [n] contributions to one zone, one after the other. *)
Fixpoint contribute_n (n : nat) (zone : string) (s : State) : State :=
  match n with
  | O => s
  | S k => contribute zone (contribute_n k zone s)
  end.

End Contract.

Lemma isInitialized_true_intro (v : Z) : v <> 0 -> isInitialized v = true.
Proof.
  intros Hv. unfold isInitialized. by destruct (Z.eqb_spec v 0).
Qed.

(** ** Invariants *)

(** The zone list names each initialised bucket once, and nothing else. *)
Definition zone_inv (s : State) : Prop :=
  NoDup (zoneList s) /\
  forall zone, zone ∈ zoneList s <-> isInitialized (zoneRiskAt s zone) = true.

(** The ids handed out so far. *)
Definition created (s : State) (measurementId : Z) : Prop :=
  1 <= measurementId <= measurementCount s.

(** ** A small engine to run the contract on

    Handles are the plaintext plus one, so that no handle is the zero word;
    the signature check accepts the one-byte proof [0x01] and nothing else;
    the hash reads the characters of the string as digits in base 256 after
    a leading one; the decoders read one byte per value, the array one as
    signed bytes. *)

Module Toy.

Definition constant (n : Z) : Z := n mod Solidity.uint32_modulus + 1.

Definition sum (a b : Z) : Z :=
  ((a - 1) + (b - 1)) mod Solidity.uint32_modulus + 1.

Definition plaintext (h : Z) : Z := h - 1.

Definition verify (requestId : Z) (cleartexts proof : list byte)
    : bool :=
  match proof with
  | [x01] => true
  | _ => false
  end.

Fixpoint digits (acc : Z) (s : string) : Z :=
  match s with
  | EmptyString => acc
  | String c rest => digits (acc * 256 + Z.of_N (N_of_ascii c)) rest
  end.

Definition hash (s : string) : Z := digits 1 s mod 2 ^ 256.

Definition signed_byte (b : byte) : Z :=
  let n := Z.of_N (Byte.to_N b) in
  if n <? 128 then n else n - 256.

Definition decode_int32_array (bs : list byte) : option (list Z) :=
  Some (map signed_byte bs).

Definition decode_uint32 (bs : list byte) : option Z :=
  match bs with
  | [b] => Some (Z.of_N (Byte.to_N b))
  | _ => None
  end.

Definition externals : Externals :=
  {| asEuint32 := constant;
     add := sum;
     checkSignatures := verify;
     keccak256 := hash;
     abi_decode_int32_array := decode_int32_array;
     abi_decode_uint32 := decode_uint32 |}.

Definition env : Env := {| msg_sender := 4660; block_timestamp := 1700000000 |}.

(** The state [s] after a call that is expected to succeed. *)
Definition after (r : result State) (s : State) : State :=
  match r with Ok s' => s' | Err _ => s end.

(** Measurement 1 submitted. *)
Definition submitted : State :=
  after (submitEncryptedMeasurement env 1001 1002 init) init.

(** ... and its decryption requested, the engine answering with request 1. *)
Definition requested : State :=
  after (requestMeasurementDecryption env 1 1 submitted)
    submitted.

(** The cleartexts (-5, 3) and (10, 7), the accepted proof and a
    rejected one. *)
Definition cold : list byte := [xfb; x03].
Definition warm : list byte := [x0a; x07].
Definition good_proof : list byte := [x01].
Definition bad_proof : list byte := [].

(** A second request for measurement 1 while the first is in flight. *)
Definition requested_twice : State :=
  after (requestMeasurementDecryption env 2 1 requested) requested.

(** The callback of request 1 arrives with (-5, 3). *)
Definition decrypted_once : State :=
  after (decryptMeasurement (E := externals) env 1 cold good_proof
           requested_twice) requested_twice.

(** ... then the callback of request 2 with (10, 7), *)
Definition decrypted_twice : State :=
  after (decryptMeasurement (E := externals) env 2 warm good_proof
           decrypted_once) decrypted_once.

(** ... or the callback of request 1 once more. *)
Definition replayed : State :=
  after (decryptMeasurement (E := externals) env 1 cold good_proof
           decrypted_once) decrypted_once.

(** The aggregate of "LowRisk" requested, the engine answering with
    request 3. *)
Definition zone_requested : State :=
  after (requestZoneRiskDecryption (E := externals) env 3 "LowRisk"
           decrypted_once) decrypted_once.

(** On a fresh contract, a request for measurement 7, which nobody
    submitted; the engine answers with request 9. *)
Definition requested_unknown : State :=
  after (requestMeasurementDecryption env 9 7 init) init.

Definition sound : Sound externals.
Proof.
  refine {| decrypt := plaintext |}.
  - intros n. apply isInitialized_true_intro. simpl. unfold constant.
    pose proof (Z.mod_pos_bound n Solidity.uint32_modulus eq_refl). lia.
  - intros a b. apply isInitialized_true_intro. simpl. unfold sum.
    pose proof (Z.mod_pos_bound (a - 1 + (b - 1)) Solidity.uint32_modulus
                  eq_refl). lia.
  - intros n Hn. simpl. unfold constant, plaintext.
    rewrite Z.mod_small by exact Hn. lia.
  - intros a b _ _. simpl. unfold sum, plaintext. lia.
Defined.

End Toy.


(** ** The log and the states a deployed contract reaches *)

(** The state a successful [submitEncryptedMeasurement] ends in. *)
Definition submitted_state (env : Env) (encTemperature encGasLevel : Z)
    (s : State) : State :=
  let newId := measurementCount s + 1 in
  emit (MeasurementSubmitted newId (block_timestamp env))
    (setDecryptedMeasurement newId zeroDecrypted
       (setEncryptedMeasurement newId
          {| em_id := newId;
             encryptedTemperature := encTemperature;
             encryptedGasLevel := encGasLevel;
             timestamp := block_timestamp env |}
          (setMeasurementCount newId s))).

(** The ids announced by [MeasurementSubmitted], oldest first. *)
Definition submitted_ids (evs : list Event) : list Z :=
  omap (fun e => match e with
                 | MeasurementSubmitted id _ => Some id
                 | _ => None
                 end) evs.

Definition is_MeasurementDecrypted (e : Event) : bool :=
  match e with
  | MeasurementDecrypted _ => true
  | _ => false
  end.

(** How many times [MeasurementDecrypted] was emitted. *)
Definition decrypted_events (evs : list Event) : nat :=
  length (List.filter is_MeasurementDecrypted evs).

(** The labels [assignZone] can give. *)
Definition risk_labels : list string := ["LowRisk"; "MediumRisk"; "HighRisk"].

(** What holds of the registry from deployment on. *)
Record registry_inv (s : State) : Prop := {
  inv_count : 0 <= measurementCount s <= Solidity.uint256_max;
  inv_keys : forall k, is_Some (encryptedMeasurements s !! k) <-> created s k;
  inv_ids : forall k m, encryptedMeasurements s !! k = Some m -> em_id m = k;
  inv_records : forall k, created s k -> is_Some (decryptedMeasurements s !! k);
  inv_log : submitted_ids (events s) = seqZ 1 (measurementCount s);
  inv_zero : decryptedMeasurements s !! 0 = None;
  inv_labels : forall zone, zone ∈ zoneList s -> zone ∈ risk_labels
}.

(** The plaintext count of a bucket, a bucket that was never created
    counting nothing. *)
Definition zoneCount {E : Externals} {HS : Sound E} (s : State)
    (zone : string) : Z :=
  if isInitialized (zoneRiskAt s zone) then decrypt (zoneRiskAt s zone) else 0.

(** The three buckets together against the log of [MeasurementDecrypted]. *)
Definition counts_match_log {E : Externals} {HS : Sound E} (s : State)
    : Prop :=
  (zoneCount s "LowRisk" + zoneCount s "MediumRisk" + zoneCount s "HighRisk")
    mod Solidity.uint32_modulus =
  Z.of_nat (decrypted_events (events s)) mod Solidity.uint32_modulus.

(** ** The dashboard's statistics (App.tsx, lines 8-16 and 40-43)

    A JavaScript number as far as [>=] and [<] see it: a finite double is
    the rational it stands for, and there are the two infinities and NaN. *)

Module Dashboard.











End Dashboard.

(** * Properties *)

(** ** Reading what was written *)

Section StorageLemmas.

Lemma zoneRiskAt_set_eq zone v s :
  zoneRiskAt (setZoneRisk zone v s) zone = v.
Proof.
  unfold zoneRiskAt, setZoneRisk; simpl. by rewrite lookup_insert_eq.
Qed.

Lemma zoneRiskAt_set_ne zone zone' v s :
  zone <> zone' ->
  zoneRiskAt (setZoneRisk zone v s) zone' = zoneRiskAt s zone'.
Proof.
  intros Hne. unfold zoneRiskAt, setZoneRisk; simpl.
  by rewrite lookup_insert_ne.
Qed.

Lemma requestTargetAt_set_eq r v s :
  requestTargetAt (setRequestTarget r v s) r = v.
Proof.
  unfold requestTargetAt, setRequestTarget; simpl.
  by rewrite lookup_insert_eq.
Qed.

End StorageLemmas.

(** ** The classifier *)

(** C8: [assignZone] is a total function of the temperature alone: it gives
    "LowRisk" exactly below -2, "MediumRisk" exactly from -2 up to (not
    including) 2 and "HighRisk" exactly from 2 on, whatever the gas level;
    at the boundaries, -2 is "MediumRisk" and 2 is "HighRisk". *)
Theorem assignZone_thresholds (temperature gasLevel : Z) :
  (assignZone temperature gasLevel = "LowRisk" <-> temperature < -2) /\
  (assignZone temperature gasLevel = "MediumRisk" <-> -2 <= temperature < 2) /\
  (assignZone temperature gasLevel = "HighRisk" <-> 2 <= temperature) /\
  (forall gasLevel', assignZone temperature gasLevel' =
                     assignZone temperature gasLevel) /\
  assignZone (-2) gasLevel = "MediumRisk" /\
  assignZone 2 gasLevel = "HighRisk".
Proof.
  unfold assignZone.
  destruct (Z.ltb_spec temperature (-2)), (Z.ltb_spec temperature 2);
    repeat split; intros; try lia; try discriminate; reflexivity.
Qed.

(** ** The caller *)

Section Caller.

Context {E : Externals}.

Lemma execute_sender (sender sender' time : Z) (c : Call) (s : State) :
  execute {| msg_sender := sender; block_timestamp := time |} c s =
  execute {| msg_sender := sender'; block_timestamp := time |} c s.
Proof. destruct c; reflexivity. Qed.

(** C10: no operation looks at its caller. The modifier [onlyResearcher]
    runs the body it guards as it is; every call gives the same result and
    the same state whoever sends it; and a whole run of transactions ends
    in the same state when each one is sent by another account. *)
Theorem caller_is_irrelevant :
  (forall (A : Type) env measurementId (body : result A),
      onlyResearcher env measurementId body = body) /\
  (forall sender sender' time c s,
      execute {| msg_sender := sender; block_timestamp := time |} c s =
      execute {| msg_sender := sender'; block_timestamp := time |} c s) /\
  (forall who txs s, run (map (resend who) txs) s = run txs s).
Proof.
  split; [| split].
  - intros A env measurementId body. reflexivity.
  - intros sender sender' time c s. apply execute_sender.
  - intros who txs. induction txs as [| [env c] txs IH]; intros s; simpl.
    + reflexivity.
    + rewrite IH. f_equal.
Qed.

End Caller.

(** ** The measurement callback *)

Section MeasurementCallback.

Context {E : Externals}.

Lemma decryptMeasurement_Ok env requestId cleartexts proof s s' :
  decryptMeasurement env requestId cleartexts proof s = Ok s' ->
  exists t g rest,
    requestTargetAt s requestId <> 0 /\
    checkSignatures requestId cleartexts proof = true /\
    abi_decode_int32_array cleartexts = Some (t :: g :: rest) /\
    s' = decrypted_state (requestTargetAt s requestId) t g s.
Proof.
  unfold decryptMeasurement, mbind, result_bind, rbind, require.
  destruct (Z.eqb_spec (requestTargetAt s requestId) 0) as [|Hid]; simpl;
    [discriminate |].
  destruct (checkSignatures requestId cleartexts proof); [| discriminate].
  destruct (abi_decode_int32_array cleartexts) as [[| t [| g rest]] |];
    simpl; try discriminate.
  intros [= <-]. exists t, g, rest. repeat split; auto.
Qed.

Lemma decryptMeasurement_accepts env requestId cleartexts proof s t g rest :
  requestTargetAt s requestId <> 0 ->
  checkSignatures requestId cleartexts proof = true ->
  abi_decode_int32_array cleartexts = Some (t :: g :: rest) ->
  decryptMeasurement env requestId cleartexts proof s =
  Ok (decrypted_state (requestTargetAt s requestId) t g s).
Proof.
  intros Hid Hsig Hdec.
  unfold decryptMeasurement, mbind, result_bind, rbind, require.
  destruct (Z.eqb_spec (requestTargetAt s requestId) 0); [contradiction |].
  simpl. rewrite Hsig, Hdec. reflexivity.
Qed.

Lemma decryptMeasurement_unknown env requestId cleartexts proof s :
  requestTargetAt s requestId = 0 ->
  decryptMeasurement env requestId cleartexts proof s = Err InvalidRequest.
Proof.
  intros Hid. unfold decryptMeasurement. rewrite Hid. reflexivity.
Qed.

Lemma decryptMeasurement_bad_proof env requestId cleartexts proof s :
  checkSignatures requestId cleartexts proof = false ->
  decryptMeasurement env requestId cleartexts proof s =
  if requestTargetAt s requestId =? 0 then Err InvalidRequest
  else Err InvalidProof.
Proof.
  intros Hsig. unfold decryptMeasurement, mbind, result_bind, rbind, require.
  destruct (requestTargetAt s requestId =? 0); simpl; [reflexivity |].
  rewrite Hsig. reflexivity.
Qed.

(** What [contribute] leaves alone. *)
Lemma contribute_frame zone s :
  measurementCount (contribute zone s) = measurementCount s /\
  encryptedMeasurements (contribute zone s) = encryptedMeasurements s /\
  decryptedMeasurements (contribute zone s) = decryptedMeasurements s /\
  requestToMeasurementId (contribute zone s) = requestToMeasurementId s /\
  events (contribute zone s) = events s /\
  oracleRequests (contribute zone s) = oracleRequests s.
Proof.
  unfold contribute.
  destruct (negb (isInitialized (zoneRiskAt s zone))); simpl; auto 10.
Qed.

Lemma decrypted_state_requests measurementId t g s :
  requestToMeasurementId (decrypted_state measurementId t g s) =
  requestToMeasurementId s.
Proof.
  unfold decrypted_state, emit; cbn [requestToMeasurementId].
  by rewrite (proj1 (proj2 (proj2 (proj2 (contribute_frame _ _))))).
Qed.

Lemma decrypted_state_record measurementId t g s k :
  decryptedMeasurementAt (decrypted_state measurementId t g s) k =
  if decide (measurementId = k)
  then {| temperature := t; gasLevel := g; isDecrypted := true |}
  else decryptedMeasurementAt s k.
Proof.
  unfold decrypted_state, decryptedMeasurementAt, emit;
    cbn [decryptedMeasurements].
  rewrite (proj1 (proj2 (proj2 (contribute_frame _ _)))); simpl.
  rewrite lookup_insert. destruct (decide (measurementId = k)); reflexivity.
Qed.

Lemma decrypted_state_encrypted measurementId t g s :
  measurementCount (decrypted_state measurementId t g s) = measurementCount s /\
  encryptedMeasurements (decrypted_state measurementId t g s) =
  encryptedMeasurements s.
Proof.
  unfold decrypted_state, emit; cbn [measurementCount encryptedMeasurements].
  destruct (contribute_frame (assignZone t g)
    (setDecryptedMeasurement measurementId
       {| temperature := t; gasLevel := g; isDecrypted := true |} s))
    as (-> & -> & _). auto.
Qed.

End MeasurementCallback.

(** ** The zone callback *)

Section ZoneCallback.

Context {E : Externals}.

Lemma getZoneFromHash_from_Ok hash zones zone :
  getZoneFromHash_from hash zones = Ok zone ->
  exists before after,
    zones = before ++ zone :: after /\
    keccak256 zone = hash /\
    Forall (fun z => keccak256 z <> hash) before.
Proof.
  induction zones as [| z zones IH]; simpl; [discriminate |].
  unfold bytes32ToUint. destruct (Z.eqb_spec (keccak256 z) hash) as [Heq | Hne].
  - intros [= <-]. exists [], zones. auto.
  - intros H. destruct (IH H) as (before & after & -> & Hh & Hb).
    exists (z :: before), after. auto.
Qed.

Lemma getZoneFromHash_from_Err hash zones e :
  getZoneFromHash_from hash zones = Err e ->
  e = ZoneNotFound /\ Forall (fun z => keccak256 z <> hash) zones.
Proof.
  induction zones as [| z zones IH]; simpl.
  - intros [= <-]. auto.
  - unfold bytes32ToUint.
    destruct (Z.eqb_spec (keccak256 z) hash) as [Heq | Hne]; [discriminate |].
    intros H. destruct (IH H). auto.
Qed.

Lemma getZoneFromHash_from_none hash zones :
  Forall (fun z => keccak256 z <> hash) zones ->
  getZoneFromHash_from hash zones = Err ZoneNotFound.
Proof.
  induction 1 as [| z zones Hz _ IH]; simpl; [reflexivity |].
  unfold bytes32ToUint. destruct (Z.eqb_spec (keccak256 z) hash); [done | auto].
Qed.

Lemma decryptZoneRisk_Ok env requestId cleartexts proof s s' :
  decryptZoneRisk env requestId cleartexts proof s = Ok s' ->
  s' = s /\
  exists zone riskValue,
    decryptZoneRisk_locals requestId cleartexts proof s = Ok (zone, riskValue).
Proof.
  unfold decryptZoneRisk, mbind, result_bind, rbind.
  destruct (decryptZoneRisk_locals requestId cleartexts proof s)
    as [[zone riskValue] |]; [| discriminate].
  intros [= <-]. eauto.
Qed.

Lemma decryptZoneRisk_locals_Ok requestId cleartexts proof s zone riskValue :
  decryptZoneRisk_locals requestId cleartexts proof s = Ok (zone, riskValue) ->
  getZoneFromHash (requestTargetAt s requestId) s = Ok zone /\
  checkSignatures requestId cleartexts proof = true /\
  abi_decode_uint32 cleartexts = Some riskValue.
Proof.
  unfold decryptZoneRisk_locals, mbind, result_bind, rbind.
  destruct (getZoneFromHash (requestTargetAt s requestId) s); [| discriminate].
  destruct (checkSignatures requestId cleartexts proof); [| discriminate].
  destruct (abi_decode_uint32 cleartexts); [| discriminate].
  intros [= <- <-]. auto.
Qed.

Lemma decryptZoneRisk_bad_proof env requestId cleartexts proof s :
  checkSignatures requestId cleartexts proof = false ->
  decryptZoneRisk env requestId cleartexts proof s =
  match getZoneFromHash (requestTargetAt s requestId) s with
  | Ok _ => Err InvalidProof
  | Err e => Err e
  end.
Proof.
  intros Hsig.
  unfold decryptZoneRisk, decryptZoneRisk_locals, mbind, result_bind, rbind.
  destruct (getZoneFromHash (requestTargetAt s requestId) s); [| reflexivity].
  rewrite Hsig. reflexivity.
Qed.

End ZoneCallback.

(** ** Proof verification *)

Section Proofs.

Context {E : Externals}.

(** C6: a callback whose proof does not verify reverts, and the state
    after the transaction is the state before it: no measurement record,
    no request mapping, no zone bucket and no list entry is changed. When
    the request is known the revert is the one of the signature check. *)
Theorem invalid_proof_changes_nothing env requestId cleartexts proof s :
  checkSignatures requestId cleartexts proof = false ->
  (exists e, decryptMeasurement env requestId cleartexts proof s = Err e) /\
  (exists e, decryptZoneRisk env requestId cleartexts proof s = Err e) /\
  (requestTargetAt s requestId <> 0 ->
     decryptMeasurement env requestId cleartexts proof s = Err InvalidProof) /\
  (forall zone,
     getZoneFromHash (requestTargetAt s requestId) s = Ok zone ->
     decryptZoneRisk env requestId cleartexts proof s = Err InvalidProof) /\
  step env (Call_decryptMeasurement requestId cleartexts proof) s = s /\
  step env (Call_decryptZoneRisk requestId cleartexts proof) s = s.
Proof.
  intros Hsig.
  pose proof (decryptMeasurement_bad_proof env _ _ _ s Hsig) as Hm.
  pose proof (decryptZoneRisk_bad_proof env _ _ _ s Hsig) as Hz.
  repeat apply conj.
  - rewrite Hm. destruct (_ =? 0); eauto.
  - rewrite Hz. destruct (getZoneFromHash _ s); eauto.
  - intros Hid. rewrite Hm.
    destruct (Z.eqb_spec (requestTargetAt s requestId) 0); [done | reflexivity].
  - intros zone Hzone. rewrite Hz, Hzone. reflexivity.
  - unfold step; simpl. rewrite Hm. by destruct (_ =? 0).
  - unfold step; simpl. rewrite Hz. by destruct (getZoneFromHash _ s).
Qed.

End Proofs.

(** ** Request correlation *)

Section Correlation.

Context {E : Externals}.

(** No transaction removes an entry of the request mapping. *)
Lemma step_keeps_requests env c s requestId :
  is_Some (requestToMeasurementId s !! requestId) ->
  is_Some (requestToMeasurementId (step env c s) !! requestId).
Proof.
  intros Hin. unfold step.
  destruct (execute env c s) as [[s' ret] |] eqn:Hexec; [| exact Hin].
  destruct c; simpl in Hexec;
    unfold mbind, result_bind, rbind in Hexec.
  - unfold submitEncryptedMeasurement, mbind, result_bind, rbind in Hexec.
    destruct (_ <? _); simpl in Hexec; [discriminate |].
    injection Hexec as <- _. exact Hin.
  - unfold requestMeasurementDecryption, onlyResearcher, require,
      mbind, result_bind, rbind in Hexec.
    destruct (negb _); simpl in Hexec; [| discriminate].
    injection Hexec as <- _. simpl.
    rewrite lookup_insert. case_decide; [eauto | exact Hin].
  - destruct (decryptMeasurement env requestId0 cleartexts proof s)
      as [s1 |] eqn:Hd; [| discriminate].
    injection Hexec as <- _.
    apply decryptMeasurement_Ok in Hd as (t & g & rest & _ & _ & _ & ->).
    by rewrite decrypted_state_requests.
  - injection Hexec as <- _. exact Hin.
  - injection Hexec as <- _. exact Hin.
  - unfold requestZoneRiskDecryption, require, mbind, result_bind, rbind
      in Hexec.
    destruct (isInitialized _); simpl in Hexec; [| discriminate].
    injection Hexec as <- _. simpl.
    rewrite lookup_insert. case_decide; [eauto | exact Hin].
  - destruct (decryptZoneRisk env requestId0 cleartexts proof s)
      as [s1 |] eqn:Hd; [| discriminate].
    injection Hexec as <- _.
    apply decryptZoneRisk_Ok in Hd as [-> _]. exact Hin.
Qed.

(** C1, as the contract has it: resolution does not consume the request.
    A successful [decryptMeasurement] leaves the whole request mapping as
    it was, so that the same requestId passes the request check of any
    later callback; a successful [decryptZoneRisk] changes nothing and
    succeeds again on the same arguments; no transaction removes an entry
    of the mapping; and the request check ("Invalid request") rejects the
    requestIds whose recorded value is zero. *)
Theorem resolution_does_not_consume env requestId cleartexts proof s :
  (forall s',
     decryptMeasurement env requestId cleartexts proof s = Ok s' ->
     requestToMeasurementId s' = requestToMeasurementId s /\
     requestTargetAt s' requestId <> 0 /\
     forall env' cleartexts' proof',
       decryptMeasurement env' requestId cleartexts' proof' s' <>
       Err InvalidRequest) /\
  (forall s',
     decryptZoneRisk env requestId cleartexts proof s = Ok s' ->
     s' = s /\
     forall env', decryptZoneRisk env' requestId cleartexts proof s' = Ok s') /\
  (forall c, is_Some (requestToMeasurementId s !! requestId) ->
     is_Some (requestToMeasurementId (step env c s) !! requestId)) /\
  (requestTargetAt s requestId = 0 ->
     decryptMeasurement env requestId cleartexts proof s = Err InvalidRequest).
Proof.
  repeat apply conj.
  - intros s' Hok.
    destruct (decryptMeasurement_Ok _ _ _ _ _ _ Hok)
      as (t & g & rest & Hid & _ & _ & ->).
    assert (Hsame : requestTargetAt (decrypted_state
              (requestTargetAt s requestId) t g s) requestId =
            requestTargetAt s requestId).
    { unfold requestTargetAt at 1 3. by rewrite decrypted_state_requests. }
    split; [apply decrypted_state_requests | split].
    + by rewrite Hsame.
    + intros env' cleartexts' proof'.
      unfold decryptMeasurement, mbind, result_bind, rbind, require.
      rewrite Hsame.
      destruct (Z.eqb_spec (requestTargetAt s requestId) 0); [done |]. simpl.
      destruct (checkSignatures _ _ _); [| discriminate].
      destruct (abi_decode_int32_array _) as [[| ? [| ? ?]] |]; discriminate.
  - intros s' Hok. destruct (decryptZoneRisk_Ok _ _ _ _ _ _ Hok) as [-> _].
    split; [reflexivity | intros env'; exact Hok].
  - intros c. apply step_keeps_requests.
  - apply decryptMeasurement_unknown.
Qed.

(** C5, as the contract has it: [requestMeasurementDecryption] reverts
    with "Already decrypted" when the record's flag is set, and otherwise
    succeeds for every id, submitted or not: it hands the record's two
    handles to the engine with the selector of [decryptMeasurement],
    records the engine's requestId for the id, emits
    [DecryptionRequested] and touches nothing else. *)
Theorem requestMeasurementDecryption_outcome env reqId measurementId s :
  (isDecrypted (decryptedMeasurementAt s measurementId) = true ->
     requestMeasurementDecryption env reqId measurementId s =
     Err AlreadyDecrypted) /\
  (isDecrypted (decryptedMeasurementAt s measurementId) = false ->
     exists s',
       requestMeasurementDecryption env reqId measurementId s = Ok s' /\
       requestTargetAt s' reqId = measurementId /\
       (forall r, r <> reqId -> requestTargetAt s' r = requestTargetAt s r) /\
       events s' = events s ++ [DecryptionRequested measurementId] /\
       oracleRequests s' = oracleRequests s ++
         [{| or_requestId := reqId;
             or_ciphertexts :=
               [encryptedTemperature (encryptedMeasurementAt s measurementId);
                encryptedGasLevel (encryptedMeasurementAt s measurementId)];
             or_selector := Sel_decryptMeasurement |}] /\
       measurementCount s' = measurementCount s /\
       encryptedMeasurements s' = encryptedMeasurements s /\
       decryptedMeasurements s' = decryptedMeasurements s /\
       encryptedZoneRisk s' = encryptedZoneRisk s /\
       zoneList s' = zoneList s).
Proof.
  unfold requestMeasurementDecryption, onlyResearcher, require,
    mbind, result_bind, rbind.
  split; intros ->; simpl; [reflexivity |].
  eexists; split; [reflexivity |]. simpl.
  split; [apply requestTargetAt_set_eq |].
  split; [| auto 10].
  intros r Hr. unfold requestTargetAt; simpl. by rewrite lookup_insert_ne.
Qed.

End Correlation.

(** ** What the callbacks apply a request to *)

Section Dispatch.

Context {E : Externals}.

(** C2, as the contract has it, for a record that is still pending:
    [decryptMeasurement] reverts with "Invalid request" when the value
    recorded for the requestId is zero and with the signature check's
    revert when the proof does not verify; otherwise, given two decoded
    values, it succeeds whether or not the recorded id was ever assigned
    by a submission, stores the two values with the flag set in the record
    of that id, leaves every other record alone and emits
    [MeasurementDecrypted]. There is no check that the measurement
    exists. *)
Theorem decryptMeasurement_on_pending env requestId cleartexts proof s :
  isDecrypted (decryptedMeasurementAt s (requestTargetAt s requestId)) = false ->
  (requestTargetAt s requestId = 0 ->
     decryptMeasurement env requestId cleartexts proof s = Err InvalidRequest) /\
  (requestTargetAt s requestId <> 0 ->
   checkSignatures requestId cleartexts proof = false ->
     decryptMeasurement env requestId cleartexts proof s = Err InvalidProof) /\
  (forall t g rest,
     requestTargetAt s requestId <> 0 ->
     checkSignatures requestId cleartexts proof = true ->
     abi_decode_int32_array cleartexts = Some (t :: g :: rest) ->
     exists s',
       decryptMeasurement env requestId cleartexts proof s = Ok s' /\
       getDecryptedMeasurement (requestTargetAt s requestId) s' = (t, g, true) /\
       (forall k, k <> requestTargetAt s requestId ->
          decryptedMeasurementAt s' k = decryptedMeasurementAt s k) /\
       events s' = events s ++
         [MeasurementDecrypted (requestTargetAt s requestId)]) /\
  (forall s',
     decryptMeasurement env requestId cleartexts proof s = Ok s' ->
     requestTargetAt s requestId <> 0 /\
     isDecrypted (decryptedMeasurementAt s' (requestTargetAt s requestId)) = true).
Proof.
  intros _. repeat apply conj.
  - apply decryptMeasurement_unknown.
  - intros Hid Hsig. rewrite (decryptMeasurement_bad_proof env _ _ _ s Hsig).
    destruct (Z.eqb_spec (requestTargetAt s requestId) 0); [done | reflexivity].
  - intros t g rest Hid Hsig Hdec.
    eexists; split;
      [exact (decryptMeasurement_accepts env _ _ _ s t g rest Hid Hsig Hdec) |].
    repeat apply conj.
    + unfold getDecryptedMeasurement. rewrite decrypted_state_record.
      by rewrite decide_True.
    + intros k Hk. rewrite decrypted_state_record. by rewrite decide_False.
    + unfold decrypted_state, emit; cbn [events]. f_equal.
      by rewrite (proj1 (proj2 (proj2 (proj2 (proj2 (contribute_frame _ _)))))).
  - intros s' Hok.
    destruct (decryptMeasurement_Ok _ _ _ _ _ _ Hok)
      as (t & g & rest & Hid & _ & _ & ->).
    split; [exact Hid |]. rewrite decrypted_state_record.
    by rewrite decide_True.
Qed.

(** C3, as the contract has it: the mapping records a bare number and no
    target type. A measurement request records the measurement id and
    gives the engine the selector of [decryptMeasurement]; a zone request
    records the hash of the label and gives the selector of
    [decryptZoneRisk]. [decryptMeasurement] takes whatever non-zero number
    is recorded as a measurement id: it rejects only a recorded zero, and
    on success it is the record of that number, and no other, that is
    written. [decryptZoneRisk] takes the recorded number as a hash and
    succeeds only when a listed label hashes to it. *)
Theorem callbacks_trust_recorded_number env reqId requestId cleartexts proof s :
  (forall measurementId s',
     requestMeasurementDecryption env reqId measurementId s = Ok s' ->
     requestTargetAt s' reqId = measurementId /\
     exists handles, oracleRequests s' = oracleRequests s ++
       [{| or_requestId := reqId; or_ciphertexts := handles;
           or_selector := Sel_decryptMeasurement |}]) /\
  (forall zone s',
     requestZoneRiskDecryption env reqId zone s = Ok s' ->
     requestTargetAt s' reqId = keccak256 zone /\
     exists handles, oracleRequests s' = oracleRequests s ++
       [{| or_requestId := reqId; or_ciphertexts := handles;
           or_selector := Sel_decryptZoneRisk |}]) /\
  (requestTargetAt s requestId = 0 ->
     decryptMeasurement env requestId cleartexts proof s = Err InvalidRequest) /\
  (forall t g rest,
     requestTargetAt s requestId <> 0 ->
     checkSignatures requestId cleartexts proof = true ->
     abi_decode_int32_array cleartexts = Some (t :: g :: rest) ->
     isOk (decryptMeasurement env requestId cleartexts proof s) = true) /\
  (forall s',
     decryptMeasurement env requestId cleartexts proof s = Ok s' ->
     isDecrypted (decryptedMeasurementAt s' (requestTargetAt s requestId)) = true /\
     forall k, k <> requestTargetAt s requestId ->
       decryptedMeasurementAt s' k = decryptedMeasurementAt s k) /\
  (forall s',
     decryptZoneRisk env requestId cleartexts proof s = Ok s' ->
     exists zone, zone ∈ zoneList s /\
                  keccak256 zone = requestTargetAt s requestId).
Proof.
  repeat apply conj.
  - intros measurementId s'.
    unfold requestMeasurementDecryption, onlyResearcher, require,
      mbind, result_bind, rbind.
    destruct (negb _); simpl; [| discriminate]. intros [= <-].
    split; [apply requestTargetAt_set_eq | simpl; eauto].
  - intros zone s'.
    unfold requestZoneRiskDecryption, require, mbind, result_bind, rbind.
    destruct (isInitialized _); simpl; [| discriminate]. intros [= <-].
    split; [apply requestTargetAt_set_eq | simpl; eauto].
  - apply decryptMeasurement_unknown.
  - intros t g rest Hid Hsig Hdec.
    by rewrite (decryptMeasurement_accepts env _ _ _ s t g rest Hid Hsig Hdec).
  - intros s' Hok.
    destruct (decryptMeasurement_Ok _ _ _ _ _ _ Hok)
      as (t & g & rest & Hid & _ & _ & ->).
    split.
    + rewrite decrypted_state_record. by rewrite decide_True.
    + intros k Hk. rewrite decrypted_state_record. by rewrite decide_False.
  - intros s' Hok.
    destruct (decryptZoneRisk_Ok _ _ _ _ _ _ Hok) as [_ (zone & n & Hloc)].
    apply decryptZoneRisk_locals_Ok in Hloc as (Hzone & _ & _).
    apply getZoneFromHash_from_Ok in Hzone as (before & after & Hl & Hh & _).
    exists zone. split; [| exact Hh]. rewrite Hl. set_solver.
Qed.

(** C7, as the contract has it: [decryptZoneRisk] looks the recorded
    number up in the zone list from the front, taking the first label
    whose hash is that number and reverting with "Zone not found" when
    there is none; it then checks the proof and decodes the count. It
    stores, emits and returns nothing: a successful call leaves the whole
    state, the encrypted counter of the bucket included, as it was, so
    that its outcome is the same whatever count was decoded. *)
Theorem decryptZoneRisk_reads_only env requestId cleartexts proof s :
  (Forall (fun z => keccak256 z <> requestTargetAt s requestId) (zoneList s) ->
     decryptZoneRisk env requestId cleartexts proof s = Err ZoneNotFound) /\
  (forall zone riskValue,
     decryptZoneRisk_locals requestId cleartexts proof s = Ok (zone, riskValue) ->
     (exists before after,
        zoneList s = before ++ zone :: after /\
        keccak256 zone = requestTargetAt s requestId /\
        Forall (fun z => keccak256 z <> requestTargetAt s requestId) before) /\
     checkSignatures requestId cleartexts proof = true /\
     abi_decode_uint32 cleartexts = Some riskValue) /\
  (forall e,
     getZoneFromHash (requestTargetAt s requestId) s = Err e ->
     e = ZoneNotFound /\
     Forall (fun z => keccak256 z <> requestTargetAt s requestId) (zoneList s)) /\
  (forall s',
     decryptZoneRisk env requestId cleartexts proof s = Ok s' ->
     s' = s /\
     forall zone, zoneRiskAt s' zone = zoneRiskAt s zone) /\
  (forall cleartexts' proof' s1 s2,
     decryptZoneRisk env requestId cleartexts proof s = Ok s1 ->
     decryptZoneRisk env requestId cleartexts' proof' s = Ok s2 ->
     s1 = s2).
Proof.
  repeat apply conj.
  - intros Hnone.
    unfold decryptZoneRisk, decryptZoneRisk_locals, getZoneFromHash,
      mbind, result_bind, rbind.
    by rewrite (getZoneFromHash_from_none _ _ Hnone).
  - intros zone riskValue Hloc.
    apply decryptZoneRisk_locals_Ok in Hloc as (Hzone & Hsig & Hdec).
    split; [| auto]. by apply getZoneFromHash_from_Ok.
  - intros e He. exact (getZoneFromHash_from_Err _ _ _ He).
  - intros s' Hok. destruct (decryptZoneRisk_Ok _ _ _ _ _ _ Hok) as [-> _].
    auto.
  - intros cleartexts' proof' s1 s2 H1 H2.
    destruct (decryptZoneRisk_Ok _ _ _ _ _ _ H1) as [-> _].
    destruct (decryptZoneRisk_Ok _ _ _ _ _ _ H2) as [-> _]. reflexivity.
Qed.

End Dispatch.

(** ** Zone aggregation *)

Section Aggregation.

Context {E : Externals} {HS : Sound E}.

Lemma contribute_first zone s :
  isInitialized (zoneRiskAt s zone) = false ->
  zoneList (contribute zone s) = zoneList s ++ [zone] /\
  zoneRiskAt (contribute zone s) zone = add (asEuint32 0) (asEuint32 1).
Proof.
  intros Hno. unfold contribute. rewrite Hno; simpl. split; [reflexivity |].
  rewrite zoneRiskAt_set_eq. f_equal.
  unfold zoneRiskAt; simpl. by rewrite lookup_insert_eq.
Qed.

Lemma contribute_next zone s :
  isInitialized (zoneRiskAt s zone) = true ->
  zoneList (contribute zone s) = zoneList s /\
  zoneRiskAt (contribute zone s) zone = add (zoneRiskAt s zone) (asEuint32 1).
Proof.
  intros Hyes. unfold contribute. rewrite Hyes; simpl. split; [reflexivity |].
  apply zoneRiskAt_set_eq.
Qed.

Lemma contribute_other zone zone' s :
  zone' <> zone ->
  zoneRiskAt (contribute zone s) zone' = zoneRiskAt s zone'.
Proof.
  intros Hne. unfold contribute.
  destruct (negb (isInitialized (zoneRiskAt s zone))).
  - rewrite zoneRiskAt_set_ne by congruence.
    unfold zoneRiskAt; simpl. by rewrite lookup_insert_ne.
  - by rewrite zoneRiskAt_set_ne.
Qed.

Lemma contribute_initialized zone s :
  isInitialized (zoneRiskAt (contribute zone s) zone) = true.
Proof.
  destruct (isInitialized (zoneRiskAt s zone)) eqn:Hi.
  - rewrite (proj2 (contribute_next zone s Hi)). apply add_initialized.
  - rewrite (proj2 (contribute_first zone s Hi)). apply add_initialized.
Qed.

Lemma decrypt_one : decrypt (asEuint32 1) = 1.
Proof. apply decrypt_asEuint32. unfold Solidity.uint32_modulus. lia. Qed.

Lemma decrypt_zero : decrypt (asEuint32 0) = 0.
Proof. apply decrypt_asEuint32. unfold Solidity.uint32_modulus. lia. Qed.

Lemma contribute_first_count zone s :
  isInitialized (zoneRiskAt s zone) = false ->
  decrypt (zoneRiskAt (contribute zone s) zone) = 1.
Proof.
  intros Hno. rewrite (proj2 (contribute_first zone s Hno)).
  rewrite decrypt_add by apply asEuint32_initialized.
  rewrite decrypt_zero, decrypt_one. reflexivity.
Qed.

Lemma contribute_next_count zone s :
  isInitialized (zoneRiskAt s zone) = true ->
  decrypt (zoneRiskAt (contribute zone s) zone) =
  (decrypt (zoneRiskAt s zone) + 1) mod Solidity.uint32_modulus.
Proof.
  intros Hyes. rewrite (proj2 (contribute_next zone s Hyes)).
  rewrite decrypt_add by (exact Hyes || apply asEuint32_initialized).
  by rewrite decrypt_one.
Qed.

Lemma contribute_zone_inv zone s :
  zone_inv s -> zone_inv (contribute zone s).
Proof.
  intros [Hnd Hin]. destruct (isInitialized (zoneRiskAt s zone)) eqn:Hi.
  - destruct (contribute_next zone s Hi) as [Hl Hv]. split.
    + by rewrite Hl.
    + intros z. rewrite Hl. destruct (decide (z = zone)) as [-> | Hne].
      * rewrite contribute_initialized. rewrite Hin. tauto.
      * rewrite contribute_other by exact Hne. apply Hin.
  - destruct (contribute_first zone s Hi) as [Hl Hv]. split.
    + rewrite Hl. apply NoDup_app. split; [exact Hnd |].
      split; [| apply NoDup_singleton].
      intros z Hz Hz'. apply list_elem_of_singleton in Hz' as ->.
      apply Hin in Hz. congruence.
    + intros z. rewrite Hl. rewrite elem_of_app, list_elem_of_singleton.
      destruct (decide (z = zone)) as [-> | Hne].
      * rewrite contribute_initialized. tauto.
      * rewrite contribute_other by exact Hne. rewrite <- Hin. tauto.
Qed.

(** The count after [n] contributions to a zone that had no bucket. *)
Lemma contribute_n_count zone s n :
  isInitialized (zoneRiskAt s zone) = false ->
  zoneList (contribute_n (S n) zone s) = zoneList s ++ [zone] /\
  isInitialized (zoneRiskAt (contribute_n (S n) zone s) zone) = true /\
  decrypt (zoneRiskAt (contribute_n (S n) zone s) zone) =
  Z.of_nat (S n) mod Solidity.uint32_modulus.
Proof.
  intros Hno. induction n as [| n (IHl & IHi & IHd)].
  - simpl contribute_n. destruct (contribute_first zone s Hno) as [Hl _].
    repeat split; [exact Hl | apply contribute_initialized |].
    rewrite (contribute_first_count zone s Hno). reflexivity.
  - change (contribute_n (S (S n)) zone s)
      with (contribute zone (contribute_n (S n) zone s)).
    destruct (contribute_next zone _ IHi) as [Hl _].
    repeat split; [by rewrite Hl | apply contribute_initialized |].
    rewrite (contribute_next_count zone _ IHi), IHd.
    rewrite Zplus_mod_idemp_l. f_equal. lia.
Qed.

End Aggregation.

(** ** What a transaction can do to the state *)

Section Transactions.

Context {E : Externals}.

(** The five shapes of a successful transaction. *)
Lemma execute_shape env c s s' ret :
  execute env c s = Ok (s', ret) ->
  s' = s \/
  (exists t g, submitEncryptedMeasurement env t g s = Ok s') \/
  (exists reqId target handles sel,
      s' = setRequestTarget reqId target
             (recordOracleRequest
                {| or_requestId := reqId; or_ciphertexts := handles;
                   or_selector := sel |} s)) \/
  (exists reqId measurementId handles,
      s' = emit (DecryptionRequested measurementId)
             (setRequestTarget reqId measurementId
                (recordOracleRequest
                   {| or_requestId := reqId; or_ciphertexts := handles;
                      or_selector := Sel_decryptMeasurement |} s))) \/
  (exists measurementId t g, s' = decrypted_state measurementId t g s).
Proof.
  destruct c; simpl; unfold mbind, result_bind, rbind.
  - destruct (submitEncryptedMeasurement env encTemperature encGasLevel s)
      eqn:Hs; [| discriminate].
    intros [= <- _]. right; left. eauto.
  - unfold requestMeasurementDecryption, onlyResearcher, require,
      mbind, result_bind, rbind.
    destruct (negb _); simpl; [| discriminate].
    intros [= <- _]. do 3 right; left. eauto.
  - destruct (decryptMeasurement env requestId cleartexts proof s)
      eqn:Hd; [| discriminate].
    intros [= <- _].
    apply decryptMeasurement_Ok in Hd as (t & g & rest & _ & _ & _ & ->).
    do 4 right. eauto.
  - intros [= <- _]. by left.
  - intros [= <- _]. by left.
  - unfold requestZoneRiskDecryption, require, mbind, result_bind, rbind.
    destruct (isInitialized _); simpl; [| discriminate].
    intros [= <- _]. do 2 right; left. eauto 10.
  - destruct (decryptZoneRisk env requestId cleartexts proof s)
      eqn:Hd; [| discriminate].
    intros [= <- _]. apply decryptZoneRisk_Ok in Hd as [-> _]. by left.
Qed.

Lemma submitEncryptedMeasurement_Ok env t g s s' :
  submitEncryptedMeasurement env t g s = Ok s' ->
  measurementCount s' = measurementCount s + 1 /\
  encryptedMeasurements s' =
    <[measurementCount s + 1 :=
        {| em_id := measurementCount s + 1; encryptedTemperature := t;
           encryptedGasLevel := g; timestamp := block_timestamp env |}]>
      (encryptedMeasurements s) /\
  decryptedMeasurements s' =
    <[measurementCount s + 1 := zeroDecrypted]> (decryptedMeasurements s) /\
  encryptedZoneRisk s' = encryptedZoneRisk s /\
  zoneList s' = zoneList s.
Proof.
  unfold submitEncryptedMeasurement, mbind, result_bind, rbind.
  destruct (_ <? _); simpl; [discriminate |].
  intros [= <-]. simpl. auto.
Qed.

(** A record that exists keeps its handles and, once its flag is set,
    keeps the flag, whatever transaction comes next. *)
Lemma step_created_stable env c s measurementId :
  created s measurementId ->
  created (step env c s) measurementId /\
  encryptedMeasurements (step env c s) !! measurementId =
    encryptedMeasurements s !! measurementId /\
  (is_Some (decryptedMeasurements s !! measurementId) ->
   is_Some (decryptedMeasurements (step env c s) !! measurementId)) /\
  (isDecrypted (decryptedMeasurementAt s measurementId) = true ->
   isDecrypted (decryptedMeasurementAt (step env c s) measurementId) = true).
Proof.
  intros Hc. unfold step.
  destruct (execute env c s) as [[s' ret] |] eqn:Hexec; [| by auto].
  apply execute_shape in Hexec
    as [-> | [(t & g & Hs) | [(r & v & h & sel & ->) |
           [(r & v & h & ->) | (k & t & g & ->)]]]]; try by auto.
  - apply submitEncryptedMeasurement_Ok in Hs as (Hn & He & Hd & _).
    unfold created, decryptedMeasurementAt in *. rewrite Hn, He, Hd.
    rewrite !lookup_insert_ne by lia. repeat split; auto; lia.
  - destruct (decrypted_state_encrypted k t g s) as [Hn He].
    unfold created. rewrite Hn, He. repeat split; auto; try apply Hc.
    + unfold decrypted_state, emit; cbn [decryptedMeasurements].
      rewrite (proj1 (proj2 (proj2 (contribute_frame _ _)))); simpl.
      rewrite lookup_insert. case_decide; eauto.
    + rewrite decrypted_state_record. by case_decide.
Qed.

Lemma run_created_stable txs s measurementId :
  created s measurementId ->
  created (run txs s) measurementId /\
  encryptedMeasurements (run txs s) !! measurementId =
    encryptedMeasurements s !! measurementId /\
  (is_Some (decryptedMeasurements s !! measurementId) ->
   is_Some (decryptedMeasurements (run txs s) !! measurementId)) /\
  (isDecrypted (decryptedMeasurementAt s measurementId) = true ->
   isDecrypted (decryptedMeasurementAt (run txs s) measurementId) = true).
Proof.
  revert s. induction txs as [| [env c] txs IH]; intros s Hc; simpl.
  - auto.
  - destruct (step_created_stable env c s measurementId Hc)
      as (Hc' & He & Hd & Hf).
    destruct (IH _ Hc') as (Hc'' & He' & Hd' & Hf').
    repeat split; auto; try apply Hc''. congruence.
Qed.

Lemma zone_inv_same s s' :
  encryptedZoneRisk s' = encryptedZoneRisk s ->
  zoneList s' = zoneList s ->
  zone_inv s -> zone_inv s'.
Proof.
  unfold zone_inv, zoneRiskAt. intros -> ->. auto.
Qed.

End Transactions.

Section AggregationInvariant.

Context {E : Externals} {HS : Sound E}.

Lemma init_zone_inv : zone_inv init.
Proof.
  split; [apply NoDup_nil_2 |].
  intros zone. unfold zoneRiskAt; simpl. rewrite lookup_empty; simpl.
  split; [by intros ?%elem_of_nil | discriminate].
Qed.

Lemma step_zone_inv env c s : zone_inv s -> zone_inv (step env c s).
Proof.
  intros Hinv. unfold step.
  destruct (execute env c s) as [[s' ret] |] eqn:Hexec; [| exact Hinv].
  apply execute_shape in Hexec
    as [-> | [(t & g & Hs) | [(r & v & h & sel & ->) |
           [(r & v & h & ->) | (k & t & g & ->)]]]]; try exact Hinv.
  - apply submitEncryptedMeasurement_Ok in Hs as (_ & _ & _ & Hz & Hl).
    by apply (zone_inv_same s).
  - unfold decrypted_state.
    eapply zone_inv_same; [reflexivity | reflexivity |].
    apply contribute_zone_inv.
    eapply zone_inv_same; [| | exact Hinv]; reflexivity.
Qed.

Lemma run_zone_inv txs s : zone_inv s -> zone_inv (run txs s).
Proof.
  revert s. induction txs as [| [env c] txs IH]; intros s Hinv; simpl.
  - exact Hinv.
  - apply IH, step_zone_inv, Hinv.
Qed.

(** C9, with the width of the counter: a contribution to a label that has
    no bucket yet appends the label, with its hash, to the reverse index and
    leaves the bucket at encrypted zero plus one; a contribution to a label
    that has one leaves the index alone and adds one to the bucket; no other
    bucket changes; the zone list names every initialised bucket exactly
    once, from deployment on and after every transaction; and [n] contributions in a
    row to a label that had no bucket leave a counter that decrypts to [n]
    modulo 2^32, which is [n] itself below 2^32. *)
Theorem contribute_counts zone s :
  (isInitialized (zoneRiskAt s zone) = false ->
     reverseIndex (contribute zone s) =
       reverseIndex s ++ [(keccak256 zone, zone)] /\
     zoneRiskAt (contribute zone s) zone = add (asEuint32 0) (asEuint32 1) /\
     decrypt (zoneRiskAt (contribute zone s) zone) = 1) /\
  (isInitialized (zoneRiskAt s zone) = true ->
     reverseIndex (contribute zone s) = reverseIndex s /\
     zoneRiskAt (contribute zone s) zone =
       add (zoneRiskAt s zone) (asEuint32 1) /\
     decrypt (zoneRiskAt (contribute zone s) zone) =
       (decrypt (zoneRiskAt s zone) + 1) mod 2 ^ 32) /\
  (forall zone', zone' <> zone ->
     zoneRiskAt (contribute zone s) zone' = zoneRiskAt s zone') /\
  (zone_inv s -> zone_inv (contribute zone s)) /\
  zone_inv init /\
  (forall txs, zone_inv s -> zone_inv (run txs s)) /\
  (forall n : nat,
     isInitialized (zoneRiskAt s zone) = false -> (0 < n)%nat ->
     zoneList (contribute_n n zone s) = zoneList s ++ [zone] /\
     decrypt (zoneRiskAt (contribute_n n zone s) zone) =
       Z.of_nat n mod 2 ^ 32 /\
     (Z.of_nat n < 2 ^ 32 ->
      decrypt (zoneRiskAt (contribute_n n zone s) zone) = Z.of_nat n)).
Proof.
  split.
  { intros Hno. destruct (contribute_first zone s Hno) as [Hl Hv].
    split; [| split; [exact Hv | by apply contribute_first_count]].
    unfold reverseIndex. rewrite Hl, map_app. reflexivity. }
  split.
  { intros Hyes. destruct (contribute_next zone s Hyes) as [Hl Hv].
    split; [| split; [exact Hv | by apply contribute_next_count]].
    unfold reverseIndex. by rewrite Hl. }
  split; [intros zone'; apply contribute_other |].
  split; [apply contribute_zone_inv |].
  split; [apply init_zone_inv |].
  split; [intros txs; apply run_zone_inv |].
  intros [| n] Hno Hn; [lia |].
  destruct (contribute_n_count zone s n Hno) as (Hl & _ & Hd).
  repeat split; auto.
  intros Hlt. rewrite Hd. apply Z.mod_small.
  unfold Solidity.uint32_modulus. lia.
Qed.

End AggregationInvariant.

(** * The contract at work

    Runs of the contract on the engine of [Toy]. *)

#[local] Existing Instance Toy.externals.

(** C1 fails on the contract: the callback of request 1 is processed, and
    the same callback sent again is processed again instead of being
    rejected: the bucket of "LowRisk" then counts the one measurement
    twice. The zone callback of request 3 succeeds as often as it is
    sent. *)
Lemma replayed_callback_is_processed_again :
  decryptMeasurement Toy.env 1 Toy.cold Toy.good_proof Toy.requested_twice =
    Ok Toy.decrypted_once /\
  decryptMeasurement Toy.env 1 Toy.cold Toy.good_proof Toy.decrypted_once =
    Ok Toy.replayed /\
  Toy.plaintext (zoneRiskAt Toy.decrypted_once "LowRisk") = 1 /\
  Toy.plaintext (zoneRiskAt Toy.replayed "LowRisk") = 2 /\
  decryptZoneRisk Toy.env 3 [x01] Toy.good_proof Toy.zone_requested =
    Ok Toy.zone_requested.
Proof. repeat split; vm_compute; reflexivity. Qed.

(** C2 fails on the contract: request 9 stands for measurement 7, which no
    submission created, and its callback succeeds instead of failing for
    an unknown measurement. *)
Lemma callback_without_measurement_succeeds :
  measurementCount Toy.requested_unknown = 0 /\
  encryptedMeasurements Toy.requested_unknown !! 7 = None /\
  requestTargetAt Toy.requested_unknown 9 = 7 /\
  exists s',
    decryptMeasurement Toy.env 9 Toy.cold Toy.good_proof
      Toy.requested_unknown = Ok s' /\
    getDecryptedMeasurement 7 s' = (-5, 3, true).
Proof.
  repeat split; try (vm_compute; reflexivity).
  eexists. split; vm_compute; reflexivity.
Qed.

(** C3 fails on the contract: request 3 was issued for the aggregate of
    "LowRisk", with the selector of [decryptZoneRisk], and
    [decryptMeasurement] accepts it: it writes the record whose id is the
    hash of the label and counts a measurement in "HighRisk". *)
Lemma zone_request_accepted_as_measurement :
  requestTargetAt Toy.zone_requested 3 = keccak256 "LowRisk" /\
  or_selector <$> last (oracleRequests Toy.zone_requested) =
    Some Sel_decryptZoneRisk /\
  exists s',
    decryptMeasurement Toy.env 3 Toy.warm Toy.good_proof Toy.zone_requested =
      Ok s' /\
    getDecryptedMeasurement (keccak256 "LowRisk") s' = (10, 7, true) /\
    isInitialized (zoneRiskAt Toy.zone_requested "HighRisk") = false /\
    Toy.plaintext (zoneRiskAt s' "HighRisk") = 1.
Proof.
  repeat split; try (vm_compute; reflexivity).
  eexists. repeat split; vm_compute; reflexivity.
Qed.

(** C5 fails on the contract: on a fresh contract no id was assigned, and
    the request for measurement 7 succeeds instead of failing for an
    unknown measurement; the call records request 9 and returns nothing. *)
Lemma request_for_unknown_measurement_succeeds :
  measurementCount init = 0 /\
  encryptedMeasurements init !! 7 = None /\
  requestMeasurementDecryption Toy.env 9 7 init = Ok Toy.requested_unknown /\
  execute Toy.env (Call_requestMeasurementDecryption 9 7) init =
    Ok (Toy.requested_unknown, Ret_none) /\
  requestTargetAt Toy.requested_unknown 9 = 7.
Proof. repeat split; vm_compute; reflexivity. Qed.

(** C7 fails on the contract: nothing that can be read from the state
    after a successful [decryptZoneRisk] gives the decrypted count. *)
Lemma zone_count_is_not_exposed :
  ~ exists view : State -> Z,
      forall requestId cleartexts proof s s' riskValue,
        decryptZoneRisk Toy.env requestId cleartexts proof s = Ok s' ->
        abi_decode_uint32 cleartexts = Some riskValue ->
        view s' = riskValue.
Proof.
  intros [view Hview].
  assert (H1 : view Toy.zone_requested = 1).
  { apply (Hview 3 [x01] Toy.good_proof Toy.zone_requested);
      vm_compute; reflexivity. }
  assert (H2 : view Toy.zone_requested = 2).
  { apply (Hview 3 [x02] Toy.good_proof Toy.zone_requested);
      vm_compute; reflexivity. }
  congruence.
Qed.

(** C9 fails on the contract at the width of the counter: after 2^32
    contributions to "HighRisk" the counter decrypts to 0. *)
Lemma counter_wraps_at_width :
  @decrypt Toy.externals Toy.sound
    (zoneRiskAt (contribute_n (Z.to_nat (2 ^ 32)) "HighRisk" init) "HighRisk")
  = 0 /\
  @decrypt Toy.externals Toy.sound
    (zoneRiskAt (contribute_n (Z.to_nat (2 ^ 32)) "HighRisk" init) "HighRisk")
  <> 2 ^ 32.
Proof.
  assert (Hn : Z.to_nat (2 ^ 32) = S (Z.to_nat (2 ^ 32 - 1))) by lia.
  destruct (contribute_n_count (HS := Toy.sound) "HighRisk" init
              (Z.to_nat (2 ^ 32 - 1)) eq_refl) as (_ & _ & Hd).
  rewrite <- Hn in Hd. rewrite Z2Nat.id in Hd by lia.
  change (2 ^ 32 mod Solidity.uint32_modulus) with 0 in Hd.
  split; [exact Hd | rewrite Hd; discriminate].
Qed.

(** C4 fails on the contract. Two requests for measurement 1 are in
    flight. The first callback stores (-5, 3); from then on a new request
    is refused ("Already decrypted"), but the second callback is not: it
    replaces the stored values by (10, 7), and the measurement is counted
    in "LowRisk" and in "HighRisk". The first callback sent a second time
    is applied a second time as well: [MeasurementDecrypted] is emitted
    twice and "LowRisk" counts 2. *)
Theorem decrypted_values_are_overwritten :
  getDecryptedMeasurement 1 Toy.requested_twice = (0, 0, false) /\
  decryptMeasurement Toy.env 1 Toy.cold Toy.good_proof Toy.requested_twice =
    Ok Toy.decrypted_once /\
  getDecryptedMeasurement 1 Toy.decrypted_once = (-5, 3, true) /\
  requestMeasurementDecryption Toy.env 4 1 Toy.decrypted_once =
    Err AlreadyDecrypted /\
  decryptMeasurement Toy.env 2 Toy.warm Toy.good_proof Toy.decrypted_once =
    Ok Toy.decrypted_twice /\
  getDecryptedMeasurement 1 Toy.decrypted_twice = (10, 7, true) /\
  Toy.plaintext (zoneRiskAt Toy.decrypted_twice "LowRisk") = 1 /\
  Toy.plaintext (zoneRiskAt Toy.decrypted_twice "HighRisk") = 1 /\
  decryptMeasurement Toy.env 1 Toy.cold Toy.good_proof Toy.decrypted_once =
    Ok Toy.replayed /\
  events Toy.replayed =
    [MeasurementSubmitted 1 1700000000; DecryptionRequested 1;
     DecryptionRequested 1; MeasurementDecrypted 1; MeasurementDecrypted 1] /\
  Toy.plaintext (zoneRiskAt Toy.replayed "LowRisk") = 2.
Proof. repeat split; vm_compute; reflexivity. Qed.

(** ** The theorems at work *)

Lemma invalid_proof_changes_nothing_witness :
  checkSignatures 1 Toy.cold Toy.bad_proof = false /\
  decryptMeasurement Toy.env 1 Toy.cold Toy.bad_proof Toy.requested =
    Err InvalidProof /\
  step Toy.env (Call_decryptMeasurement 1 Toy.cold Toy.bad_proof) Toy.requested =
    Toy.requested.
Proof.
  split; [reflexivity |].
  destruct (invalid_proof_changes_nothing (E := Toy.externals) Toy.env 1
              Toy.cold Toy.bad_proof Toy.requested eq_refl)
    as (_ & _ & Hrev & _ & Hstep & _).
  split; [apply Hrev; vm_compute; discriminate | exact Hstep].
Defined.

Lemma resolution_does_not_consume_witness :
  decryptMeasurement Toy.env 1 Toy.cold Toy.good_proof Toy.requested_twice =
    Ok Toy.decrypted_once /\
  requestToMeasurementId Toy.decrypted_once =
    requestToMeasurementId Toy.requested_twice /\
  requestTargetAt Toy.decrypted_once 1 <> 0.
Proof.
  assert (Hok : decryptMeasurement Toy.env 1 Toy.cold Toy.good_proof
                  Toy.requested_twice = Ok Toy.decrypted_once)
    by (vm_compute; reflexivity).
  split; [exact Hok |].
  destruct (resolution_does_not_consume Toy.env 1 Toy.cold Toy.good_proof
              Toy.requested_twice) as (Hm & _).
  destruct (Hm _ Hok) as (Hsame & Hid & _). split; assumption.
Defined.

Lemma decryptMeasurement_on_pending_witness :
  isDecrypted (decryptedMeasurementAt Toy.requested
                 (requestTargetAt Toy.requested 1)) = false /\
  exists s',
    decryptMeasurement Toy.env 1 Toy.cold Toy.good_proof Toy.requested = Ok s' /\
    getDecryptedMeasurement (requestTargetAt Toy.requested 1) s' = (-5, 3, true).
Proof.
  split; [reflexivity |].
  destruct (decryptMeasurement_on_pending (E := Toy.externals) Toy.env 1
              Toy.cold Toy.good_proof Toy.requested eq_refl)
    as (_ & _ & Hok & _).
  destruct (Hok (-5) 3 []) as (s' & Hs' & Hget & _);
    [vm_compute; discriminate | reflexivity | reflexivity |].
  exists s'. split; assumption.
Defined.

Lemma callbacks_trust_recorded_number_witness :
  requestTargetAt Toy.zone_requested 3 <> 0 /\
  checkSignatures 3 Toy.warm Toy.good_proof = true /\
  abi_decode_int32_array Toy.warm = Some [10; 7] /\
  isOk (decryptMeasurement Toy.env 3 Toy.warm Toy.good_proof Toy.zone_requested)
    = true.
Proof.
  assert (Hid : requestTargetAt Toy.zone_requested 3 <> 0)
    by (vm_compute; discriminate).
  destruct (callbacks_trust_recorded_number Toy.env 3 3 Toy.warm Toy.good_proof
              Toy.zone_requested) as (_ & _ & _ & Hacc & _).
  split; [exact Hid |]. split; [reflexivity |]. split; [reflexivity |].
  exact (Hacc 10 7 [] Hid eq_refl eq_refl).
Defined.

Lemma requestMeasurementDecryption_outcome_witness :
  (isDecrypted (decryptedMeasurementAt Toy.decrypted_once 1) = true /\
   requestMeasurementDecryption Toy.env 4 1 Toy.decrypted_once =
     Err AlreadyDecrypted) /\
  (isDecrypted (decryptedMeasurementAt init 7) = false /\
   exists s', requestMeasurementDecryption Toy.env 9 7 init = Ok s' /\
              requestTargetAt s' 9 = 7).
Proof.
  split.
  - split; [reflexivity |].
    apply (requestMeasurementDecryption_outcome Toy.env 4 1 Toy.decrypted_once).
    reflexivity.
  - split; [reflexivity |].
    destruct (requestMeasurementDecryption_outcome Toy.env 9 7 init)
      as (_ & Hok).
    destruct (Hok eq_refl) as (s' & Hs' & Hrec & _).
    exists s'. split; assumption.
Defined.

Lemma decryptZoneRisk_reads_only_witness :
  decryptZoneRisk Toy.env 3 [x02] Toy.good_proof Toy.zone_requested =
    Ok Toy.zone_requested /\
  zoneRiskAt Toy.zone_requested "LowRisk" = 2 /\
  Forall (fun z => keccak256 z <> requestTargetAt Toy.zone_requested 1)
    (zoneList Toy.zone_requested) /\
  decryptZoneRisk Toy.env 1 [x02] Toy.good_proof Toy.zone_requested =
    Err ZoneNotFound.
Proof.
  assert (Hok : decryptZoneRisk Toy.env 3 [x02] Toy.good_proof
                  Toy.zone_requested = Ok Toy.zone_requested)
    by (vm_compute; reflexivity).
  assert (Hnone : Forall
            (fun z => keccak256 z <> requestTargetAt Toy.zone_requested 1)
            (zoneList Toy.zone_requested)).
  { repeat constructor. vm_compute. discriminate. }
  destruct (decryptZoneRisk_reads_only Toy.env 3 [x02] Toy.good_proof
              Toy.zone_requested) as (_ & _ & _ & Hsame & _).
  destruct (Hsame _ Hok) as [_ Hrisk].
  destruct (decryptZoneRisk_reads_only Toy.env 1 [x02] Toy.good_proof
              Toy.zone_requested) as (Hmiss & _).
  split; [exact Hok |]. split; [reflexivity |]. split; [exact Hnone |].
  exact (Hmiss Hnone).
Defined.

Lemma contribute_counts_witness :
  isInitialized (zoneRiskAt init "HighRisk") = false /\
  reverseIndex (contribute "HighRisk" init) =
    [(keccak256 "HighRisk", "HighRisk")] /\
  Toy.plaintext (zoneRiskAt (contribute "HighRisk" init) "HighRisk") = 1 /\
  Toy.plaintext (zoneRiskAt (contribute_n 3 "HighRisk" init) "HighRisk") = 3.
Proof.
  split; [reflexivity |].
  destruct (contribute_counts (HS := Toy.sound) "HighRisk" init)
    as (Hfirst & _ & _ & _ & _ & _ & Hn).
  destruct (Hfirst eq_refl) as (Hl & _ & Hd).
  destruct (Hn 3%nat eq_refl) as (_ & _ & H3); [lia |].
  split; [exact Hl |]. split; [exact Hd |]. apply H3. reflexivity.
Defined.

(** * More of the contract *)

(** ** The shape of a successful transaction, call by call *)

Section Cases.

Context {E : Externals}.

Lemma submitEncryptedMeasurement_state env t g s s' :
  submitEncryptedMeasurement env t g s = Ok s' ->
  measurementCount s + 1 <= Solidity.uint256_max /\
  s' = submitted_state env t g s.
Proof.
  unfold submitEncryptedMeasurement, mbind, result_bind, rbind.
  destruct (Z.ltb_spec Solidity.uint256_max (measurementCount s + 1));
    simpl; [discriminate |].
  intros [= <-]. split; [assumption | reflexivity].
Qed.

Lemma submitEncryptedMeasurement_below env t g s :
  measurementCount s + 1 <= Solidity.uint256_max ->
  submitEncryptedMeasurement env t g s = Ok (submitted_state env t g s).
Proof.
  intros Hle. unfold submitEncryptedMeasurement, mbind, result_bind, rbind.
  destruct (Z.ltb_spec Solidity.uint256_max (measurementCount s + 1));
    [lia | reflexivity].
Qed.

Lemma execute_cases env c s s' ret :
  execute env c s = Ok (s', ret) ->
  s' = s \/
  (exists t g,
      c = Call_submitEncryptedMeasurement t g /\
      measurementCount s + 1 <= Solidity.uint256_max /\
      s' = submitted_state env t g s) \/
  (exists reqId measurementId,
      c = Call_requestMeasurementDecryption reqId measurementId /\
      isDecrypted (decryptedMeasurementAt s measurementId) = false /\
      s' = emit (DecryptionRequested measurementId)
             (setRequestTarget reqId measurementId
                (recordOracleRequest
                   {| or_requestId := reqId;
                      or_ciphertexts :=
                        [encryptedTemperature
                           (encryptedMeasurementAt s measurementId);
                         encryptedGasLevel
                           (encryptedMeasurementAt s measurementId)];
                      or_selector := Sel_decryptMeasurement |} s))) \/
  (exists requestId cleartexts proof t g rest,
      c = Call_decryptMeasurement requestId cleartexts proof /\
      requestTargetAt s requestId <> 0 /\
      checkSignatures requestId cleartexts proof = true /\
      abi_decode_int32_array cleartexts = Some (t :: g :: rest) /\
      s' = decrypted_state (requestTargetAt s requestId) t g s) \/
  (exists reqId zone,
      c = Call_requestZoneRiskDecryption reqId zone /\
      isInitialized (zoneRiskAt s zone) = true /\
      s' = setRequestTarget reqId (keccak256 zone)
             (recordOracleRequest
                {| or_requestId := reqId;
                   or_ciphertexts := [zoneRiskAt s zone];
                   or_selector := Sel_decryptZoneRisk |} s)).
Proof.
  destruct c; simpl; unfold mbind, result_bind, rbind.
  - destruct (submitEncryptedMeasurement env encTemperature encGasLevel s)
      eqn:Hs; [| discriminate].
    intros [= <- _]. apply submitEncryptedMeasurement_state in Hs as [Hle ->].
    right; left. eauto.
  - unfold requestMeasurementDecryption, onlyResearcher, require,
      mbind, result_bind, rbind.
    destruct (isDecrypted (decryptedMeasurementAt s measurementId)) eqn:Hd;
      simpl; [discriminate |].
    intros [= <- _]. do 2 right; left. eauto.
  - destruct (decryptMeasurement env requestId cleartexts proof s)
      eqn:Hd; [| discriminate].
    intros [= <- _].
    apply decryptMeasurement_Ok in Hd as (t & g & rest & Hid & Hsig & Hdec & ->).
    do 3 right; left. eauto 12.
  - intros [= <- _]. by left.
  - intros [= <- _]. by left.
  - unfold requestZoneRiskDecryption, require, mbind, result_bind, rbind.
    destruct (isInitialized (zoneRiskAt s zone)) eqn:Hi;
      simpl; [| discriminate].
    intros [= <- _]. do 4 right. eauto.
  - destruct (decryptZoneRisk env requestId cleartexts proof s)
      eqn:Hd; [| discriminate].
    intros [= <- _]. apply decryptZoneRisk_Ok in Hd as [-> _]. by left.
Qed.

(** An invariant of every transaction is an invariant of every run. *)
Lemma run_invariant (P : State -> Prop) :
  (forall env c s, P s -> P (step env c s)) ->
  forall txs s, P s -> P (run txs s).
Proof.
  intros Hstep txs. induction txs as [| [env c] txs IH]; intros s Hs; simpl.
  - exact Hs.
  - apply IH, Hstep, Hs.
Qed.

Lemma assignZone_label t g : assignZone t g ∈ risk_labels.
Proof.
  unfold assignZone, risk_labels.
  destruct (t <? -2); [| destruct (t <? 2)]; set_solver.
Qed.

Lemma contribute_zoneList zone s :
  zoneList (contribute zone s) = zoneList s \/
  zoneList (contribute zone s) = zoneList s ++ [zone].
Proof.
  unfold contribute.
  destruct (negb (isInitialized (zoneRiskAt s zone))); simpl; auto.
Qed.

Lemma submitted_ids_snoc evs e :
  submitted_ids (evs ++ [e]) =
  submitted_ids evs ++
    match e with MeasurementSubmitted id _ => [id] | _ => [] end.
Proof.
  unfold submitted_ids. rewrite omap_app. by destruct e.
Qed.

Lemma seqZ_snoc_one n : 0 <= n -> seqZ 1 (n + 1) = seqZ 1 n ++ [n + 1].
Proof.
  intros Hn. rewrite seqZ_app by lia. f_equal.
  rewrite seqZ_cons by lia. rewrite seqZ_nil by lia. f_equal. lia.
Qed.

Lemma init_registry_inv : registry_inv init.
Proof.
  split; simpl.
  - unfold Solidity.uint256_max. lia.
  - intros k. rewrite lookup_empty. unfold created; simpl.
    split; [intros [? [=]] | lia].
  - intros k m. by rewrite lookup_empty.
  - unfold created; simpl. lia.
  - reflexivity.
  - apply lookup_empty.
  - by intros zone ?%elem_of_nil.
Qed.

Lemma step_registry_inv env c s :
  registry_inv s -> registry_inv (step env c s).
Proof.
  intros Hinv. unfold step.
  destruct (execute env c s) as [[s' ret] |] eqn:Hexec; [| exact Hinv].
  destruct Hinv as [Hcount Hkeys Hids Hrec Hlog Hzero Hlab].
  apply execute_cases in Hexec
    as [-> | [(t & g & _ & Hle & ->) | [(r & k & _ & _ & ->) |
           [(r & cl & p & t & g & rest & _ & Hid & _ & _ & ->) |
            (r & z & _ & _ & ->)]]]].
  - by split.
  - split; unfold created in *; simpl.
    + lia.
    + intros k. rewrite lookup_insert. case_decide as Hk.
      * subst k. split; [lia | eauto].
      * rewrite Hkeys. lia.
    + intros k m. rewrite lookup_insert. case_decide as Hk.
      * by intros [= <-].
      * apply Hids.
    + intros k Hk. rewrite lookup_insert. case_decide; [eauto |].
      apply Hrec. lia.
    + rewrite submitted_ids_snoc, Hlog. symmetry. apply seqZ_snoc_one. lia.
    + rewrite lookup_insert_ne by lia. exact Hzero.
    + exact Hlab.
  - split; simpl; try assumption.
    rewrite submitted_ids_snoc, Hlog. apply app_nil_r.
  - destruct (decrypted_state_encrypted (requestTargetAt s r) t g s)
      as [Hn He].
    pose proof (contribute_frame (assignZone t g)
      (setDecryptedMeasurement (requestTargetAt s r)
         {| temperature := t; gasLevel := g; isDecrypted := true |} s))
      as (_ & _ & Hd & _ & Hev & _).
    split; unfold created in *; rewrite ?Hn, ?He; try assumption.
    + intros k Hk. unfold decrypted_state, emit; cbn [decryptedMeasurements].
      rewrite Hd; simpl. rewrite lookup_insert. case_decide; eauto.
    + unfold decrypted_state, emit; cbn [events].
      rewrite submitted_ids_snoc, Hev; simpl. rewrite Hlog. apply app_nil_r.
    + unfold decrypted_state, emit; cbn [decryptedMeasurements].
      rewrite Hd; simpl. by rewrite lookup_insert_ne.
    + unfold decrypted_state, emit; cbn [zoneList]. intros zone.
      destruct (contribute_zoneList (assignZone t g)
        (setDecryptedMeasurement (requestTargetAt s r)
           {| temperature := t; gasLevel := g; isDecrypted := true |} s))
        as [-> | ->]; simpl.
      * apply Hlab.
      * rewrite elem_of_app, list_elem_of_singleton.
        intros [? | ->]; [by apply Hlab | apply assignZone_label].
  - by split.
Qed.

Lemma run_registry_inv txs : registry_inv (run txs init).
Proof.
  apply (run_invariant registry_inv); [apply step_registry_inv |].
  apply init_registry_inv.
Qed.

End Cases.

(** ** Submission and the registry *)

Section Registry.

Context {E : Externals}.

(** X1: below the top of [uint256], [submitEncryptedMeasurement] succeeds:
    it gives the measurement the next id, stores the two handles and the
    block time under it, sets the decrypted side of that id to pending
    whatever it held, announces the id with [MeasurementSubmitted], and
    leaves every other record, the request mapping, the buckets and the
    zone list as they were. *)
Theorem submit_assigns_next_id env encTemperature encGasLevel s :
  measurementCount s + 1 <= Solidity.uint256_max ->
  exists s',
    submitEncryptedMeasurement env encTemperature encGasLevel s = Ok s' /\
    measurementCount s' = measurementCount s + 1 /\
    encryptedMeasurementAt s' (measurementCount s') =
      {| em_id := measurementCount s';
         encryptedTemperature := encTemperature;
         encryptedGasLevel := encGasLevel;
         timestamp := block_timestamp env |} /\
    getDecryptedMeasurement (measurementCount s') s' = (0, 0, false) /\
    (forall k, k <> measurementCount s' ->
       encryptedMeasurements s' !! k = encryptedMeasurements s !! k /\
       decryptedMeasurements s' !! k = decryptedMeasurements s !! k) /\
    events s' = events s ++
      [MeasurementSubmitted (measurementCount s') (block_timestamp env)] /\
    requestToMeasurementId s' = requestToMeasurementId s /\
    encryptedZoneRisk s' = encryptedZoneRisk s /\
    zoneList s' = zoneList s /\
    oracleRequests s' = oracleRequests s.
Proof.
  intros Hle. exists (submitted_state env encTemperature encGasLevel s).
  split; [by apply submitEncryptedMeasurement_below |].
  unfold submitted_state, getDecryptedMeasurement, encryptedMeasurementAt,
    decryptedMeasurementAt; simpl.
  rewrite !lookup_insert_eq; simpl.
  repeat split; try reflexivity; by rewrite lookup_insert_ne.
Qed.

(** X2: the ids announced by [MeasurementSubmitted], read off the log of any
    run from deployment, are 1, 2, ... up to the current
    [measurementCount], in this order: no id is announced twice and none is
    skipped. *)
Theorem submitted_ids_are_consecutive (txs : list (Env * Call)) :
  submitted_ids (events (run txs init)) =
    seqZ 1 (measurementCount (run txs init)) /\
  NoDup (submitted_ids (events (run txs init))) /\
  length (submitted_ids (events (run txs init))) =
    Z.to_nat (measurementCount (run txs init)).
Proof.
  destruct (run_registry_inv txs) as [_ _ _ _ Hlog _ _].
  rewrite Hlog. split; [reflexivity |].
  split; [apply NoDup_seqZ | apply length_seqZ].
Qed.

(** X3: [measurementCount] stays within [uint256] in every run from
    deployment; a submission succeeds exactly when the count is below the
    top of the range, and when it fails it is with the overflow panic and
    nothing else. *)
Theorem submit_fails_only_at_the_top env encTemperature encGasLevel :
  (forall txs,
     0 <= measurementCount (run txs init) <= Solidity.uint256_max) /\
  (forall s,
     isOk (submitEncryptedMeasurement env encTemperature encGasLevel s) = true
     <-> measurementCount s + 1 <= Solidity.uint256_max) /\
  (forall s e,
     submitEncryptedMeasurement env encTemperature encGasLevel s = Err e ->
     e = Panic Solidity.panic_overflow).
Proof.
  split; [intros txs; apply (run_registry_inv txs) |]. split.
  - intros s. split.
    + destruct (submitEncryptedMeasurement env encTemperature encGasLevel s)
        eqn:Hs; [| discriminate].
      intros _. by apply submitEncryptedMeasurement_state in Hs as [Hle _].
    + intros Hle. by rewrite submitEncryptedMeasurement_below.
  - intros s e.
    unfold submitEncryptedMeasurement, mbind, result_bind, rbind.
    destruct (_ <? _); simpl; [by intros [= <-] | discriminate].
Qed.

(** X4: in every run from deployment the registry holds a record for the
    ids 1 to [measurementCount] and for no other id; the record stored under
    an id carries that id; and each of these ids has its decrypted-side
    record. *)
Theorem registry_holds_the_created_ids (txs : list (Env * Call)) (k : Z) :
  (is_Some (encryptedMeasurements (run txs init) !! k) <->
   1 <= k <= measurementCount (run txs init)) /\
  (forall m, encryptedMeasurements (run txs init) !! k = Some m -> em_id m = k) /\
  (1 <= k <= measurementCount (run txs init) ->
   is_Some (decryptedMeasurements (run txs init) !! k)).
Proof.
  destruct (run_registry_inv txs) as [_ Hkeys Hids Hrec _ _ _].
  split; [apply Hkeys | split; [apply Hids | apply Hrec]].
Qed.

(** X5: id 0 is never a measurement: in every run from deployment the
    registry has no record under 0, and [getDecryptedMeasurement(0)] reads
    (0, 0, false). *)
Theorem measurement_zero_is_never_touched (txs : list (Env * Call)) :
  encryptedMeasurements (run txs init) !! 0 = None /\
  decryptedMeasurements (run txs init) !! 0 = None /\
  getDecryptedMeasurement 0 (run txs init) = (0, 0, false).
Proof.
  destruct (run_registry_inv txs) as [_ Hkeys _ _ _ Hzero _].
  split; [| split; [exact Hzero |]].
  - destruct (encryptedMeasurements (run txs init) !! 0) eqn:H0; [| reflexivity].
    assert (Hc : created (run txs init) 0) by (apply Hkeys; rewrite H0; eauto).
    unfold created in Hc. lia.
  - unfold getDecryptedMeasurement, decryptedMeasurementAt. by rewrite Hzero.
Qed.



(** X7: the flag of a record is set by nothing but the measurement
    callback: when a transaction takes [isDecrypted] of an id from false to
    true, the transaction is a [decryptMeasurement] whose requestId is
    recorded for that id and whose proof passed [FHE.checkSignatures], and
    the values stored are the first two decoded ones. *)
Theorem flag_is_set_only_by_a_verified_callback env c s measurementId :
  isDecrypted (decryptedMeasurementAt s measurementId) = false ->
  isDecrypted (decryptedMeasurementAt (step env c s) measurementId) = true ->
  exists requestId cleartexts proof t g rest,
    c = Call_decryptMeasurement requestId cleartexts proof /\
    requestTargetAt s requestId = measurementId /\
    measurementId <> 0 /\
    checkSignatures requestId cleartexts proof = true /\
    abi_decode_int32_array cleartexts = Some (t :: g :: rest) /\
    getDecryptedMeasurement measurementId (step env c s) = (t, g, true).
Proof.
  intros Hbefore. unfold step.
  destruct (execute env c s) as [[s' ret] |] eqn:Hexec; [| congruence].
  apply execute_cases in Hexec
    as [-> | [(t & g & _ & Hle & ->) | [(r & k & _ & _ & ->) |
           [(r & cl & p & t & g & rest & -> & Hid & Hsig & Hdec & ->) |
            (r & z & _ & _ & ->)]]]];
    try (unfold decryptedMeasurementAt in *; simpl; congruence).
  - unfold submitted_state, decryptedMeasurementAt in *; simpl.
    rewrite lookup_insert. case_decide; simpl; congruence.
  - unfold getDecryptedMeasurement. rewrite decrypted_state_record.
    case_decide as Hk; [| congruence]. intros _.
    exists r, cl, p, t, g, rest. subst measurementId. auto 10.
Qed.

End Registry.

(** ** The buckets and the callbacks *)

Section Buckets.

Context {E : Externals} {HS : Sound E}.

Lemma zoneRiskAt_decrypted_state k t g s zone :
  zoneRiskAt (decrypted_state k t g s) zone =
  zoneRiskAt (contribute (assignZone t g) s) zone.
Proof.
  unfold decrypted_state, contribute.
  change (zoneRiskAt (setDecryptedMeasurement k
            {| temperature := t; gasLevel := g; isDecrypted := true |} s)
            (assignZone t g))
    with (zoneRiskAt s (assignZone t g)).
  destruct (negb (isInitialized (zoneRiskAt s (assignZone t g)))); reflexivity.
Qed.

Lemma zoneCount_contribute zone s :
  zoneCount (contribute zone s) zone =
  (zoneCount s zone + 1) mod Solidity.uint32_modulus.
Proof.
  unfold zoneCount. rewrite contribute_initialized.
  destruct (isInitialized (zoneRiskAt s zone)) eqn:Hi.
  - by apply contribute_next_count.
  - by rewrite contribute_first_count.
Qed.

Lemma zoneCount_contribute_other zone zone' s :
  zone' <> zone -> zoneCount (contribute zone s) zone' = zoneCount s zone'.
Proof.
  intros Hne. unfold zoneCount. by rewrite contribute_other.
Qed.

Lemma zoneCount_decrypted_state k t g s zone :
  zoneCount (decrypted_state k t g s) zone =
  if decide (zone = assignZone t g)
  then (zoneCount s zone + 1) mod Solidity.uint32_modulus
  else zoneCount s zone.
Proof.
  unfold zoneCount at 1. rewrite zoneRiskAt_decrypted_state.
  fold (zoneCount (contribute (assignZone t g) s) zone).
  case_decide as Hz.
  - subst zone. apply zoneCount_contribute.
  - by apply zoneCount_contribute_other.
Qed.

Lemma decrypted_events_snoc evs e :
  decrypted_events (evs ++ [e]) =
  (decrypted_events evs + if is_MeasurementDecrypted e then 1 else 0)%nat.
Proof.
  unfold decrypted_events. rewrite List.filter_app, length_app; simpl.
  by destruct (is_MeasurementDecrypted e).
Qed.

Lemma decrypted_events_decrypted_state k t g s :
  decrypted_events (events (decrypted_state k t g s)) =
  S (decrypted_events (events s)).
Proof.
  unfold decrypted_state, emit; cbn [events].
  rewrite (proj1 (proj2 (proj2 (proj2 (proj2 (contribute_frame _ _)))))).
  rewrite decrypted_events_snoc; simpl. lia.
Qed.

(** X8: a measurement callback that succeeds counts in exactly one bucket:
    the bucket of the label of the decoded temperature goes up by one
    (modulo 2^32) and is initialised afterwards, every other bucket keeps
    its handle, and [MeasurementDecrypted] is emitted once. *)
Theorem callback_counts_in_one_bucket env requestId cleartexts proof s s'
    t g rest :
  decryptMeasurement env requestId cleartexts proof s = Ok s' ->
  abi_decode_int32_array cleartexts = Some (t :: g :: rest) ->
  zoneCount s' (assignZone t g) =
    (zoneCount s (assignZone t g) + 1) mod 2 ^ 32 /\
  isInitialized (zoneRiskAt s' (assignZone t g)) = true /\
  (forall zone, zone <> assignZone t g ->
     zoneRiskAt s' zone = zoneRiskAt s zone) /\
  decrypted_events (events s') = S (decrypted_events (events s)).
Proof.
  intros Hok Hdec.
  apply decryptMeasurement_Ok in Hok as (t' & g' & rest' & _ & _ & Hdec' & ->).
  rewrite Hdec in Hdec'. injection Hdec' as <- <- <-.
  split; [| split; [| split]].
  - rewrite zoneCount_decrypted_state. by rewrite decide_True.
  - rewrite zoneRiskAt_decrypted_state. apply contribute_initialized.
  - intros zone Hne. rewrite zoneRiskAt_decrypted_state.
    by apply contribute_other.
  - apply decrypted_events_decrypted_state.
Qed.

Lemma mod_bump (a b M : Z) : ((a + 1) mod M + b) mod M = (a + b + 1) mod M.
Proof. rewrite Zplus_mod_idemp_l. f_equal. lia. Qed.

Lemma mod_next (a M : Z) (n : nat) :
  a mod M = Z.of_nat n mod M -> (a + 1) mod M = Z.of_nat (S n) mod M.
Proof.
  intros H. rewrite Nat2Z.inj_succ, <- Z.add_1_r.
  by rewrite <- (Zplus_mod_idemp_l a), H, Zplus_mod_idemp_l.
Qed.

Lemma step_counts_match_log env c s :
  counts_match_log s -> counts_match_log (step env c s).
Proof.
  intros Hinv. unfold step.
  destruct (execute env c s) as [[s' ret] |] eqn:Hexec; [| exact Hinv].
  apply execute_cases in Hexec
    as [-> | [(t & g & _ & Hle & ->) | [(r & k & _ & _ & ->) |
           [(r & cl & p & t & g & rest & _ & Hid & _ & _ & ->) |
            (r & z & _ & _ & ->)]]]]; try exact Hinv.
  - unfold counts_match_log in *. simpl events.
    rewrite decrypted_events_snoc; simpl. rewrite Nat.add_0_r. exact Hinv.
  - unfold counts_match_log in *. simpl events.
    rewrite decrypted_events_snoc; simpl. rewrite Nat.add_0_r. exact Hinv.
  - unfold counts_match_log in *.
    rewrite decrypted_events_decrypted_state.
    apply mod_next in Hinv. rewrite <- Hinv.
    rewrite !zoneCount_decrypted_state.
    set (l := zoneCount s "LowRisk"). set (m := zoneCount s "MediumRisk").
    set (h := zoneCount s "HighRisk").
    unfold assignZone.
    destruct (t <? -2); [| destruct (t <? 2)];
      repeat (case_decide; try congruence).
    + replace ((l + 1) mod Solidity.uint32_modulus + m + h)
        with ((l + 1) mod Solidity.uint32_modulus + (m + h)) by lia.
      rewrite mod_bump. f_equal. lia.
    + replace (l + (m + 1) mod Solidity.uint32_modulus + h)
        with ((m + 1) mod Solidity.uint32_modulus + (l + h)) by lia.
      rewrite mod_bump. f_equal. lia.
    + replace (l + m + (h + 1) mod Solidity.uint32_modulus)
        with ((h + 1) mod Solidity.uint32_modulus + (l + m)) by lia.
      rewrite mod_bump. f_equal. lia.
Qed.

(** X9: the buckets count every accepted callback, replayed ones included:
    in every run from deployment the plaintexts of the three buckets add
    up, modulo 2^32, to the number of [MeasurementDecrypted] events in the
    log. *)
Theorem buckets_count_every_accepted_callback (txs : list (Env * Call)) :
  (zoneCount (run txs init) "LowRisk" + zoneCount (run txs init) "MediumRisk" +
   zoneCount (run txs init) "HighRisk") mod 2 ^ 32 =
  Z.of_nat (decrypted_events (events (run txs init))) mod 2 ^ 32.
Proof.
  apply (run_invariant counts_match_log); [apply step_counts_match_log |].
  reflexivity.
Qed.

(** X10: only the three labels of [assignZone] ever get a bucket: in every
    run from deployment the zone list holds labels of [assignZone] only,
    each at most once, so that it never has more than three entries and the
    search of [getZoneFromHash] looks at three labels at most; a request
    for the aggregate of any other label reverts with "Zone not found". *)
Theorem zone_list_holds_the_three_labels (txs : list (Env * Call)) :
  (forall zone, zone ∈ zoneList (run txs init) -> zone ∈ risk_labels) /\
  NoDup (zoneList (run txs init)) /\
  (length (zoneList (run txs init)) <= 3)%nat /\
  (forall env reqId zone,
     zone ∉ risk_labels ->
     requestZoneRiskDecryption env reqId zone (run txs init) = Err ZoneNotFound).
Proof.
  destruct (run_registry_inv txs) as [_ _ _ _ _ _ Hlab].
  destruct (run_zone_inv txs init init_zone_inv) as [Hnd Hin].
  split; [exact Hlab |]. split; [exact Hnd |]. split.
  - change 3%nat with (length risk_labels).
    apply submseteq_length, NoDup_submseteq; assumption.
  - intros env reqId zone Hnot.
    unfold requestZoneRiskDecryption, require, mbind, result_bind, rbind.
    destruct (isInitialized (zoneRiskAt (run txs init) zone)) eqn:Hi;
      [| reflexivity].
    apply Hin, Hlab in Hi. contradiction.
Qed.

End Buckets.

(** ** Requests for an aggregate *)

Section ZoneRequests.

Context {E : Externals}.

(** X11: in a state where the zone list names the initialised buckets,
    [requestZoneRiskDecryption] succeeds exactly for the labels of the zone
    list and reverts with "Zone not found" for every other label. When it
    succeeds it records the hash of the label for the engine's requestId,
    hands the engine the bucket's handle with the selector of
    [decryptZoneRisk], emits no event and changes nothing else. On a fresh
    contract it fails for every label. *)
Theorem requestZoneRiskDecryption_outcome env reqId zone s :
  zone_inv s ->
  (isOk (requestZoneRiskDecryption env reqId zone s) = true <->
   zone ∈ zoneList s) /\
  (zone ∉ zoneList s ->
   requestZoneRiskDecryption env reqId zone s = Err ZoneNotFound) /\
  (forall s',
     requestZoneRiskDecryption env reqId zone s = Ok s' ->
     requestTargetAt s' reqId = keccak256 zone /\
     (forall r, r <> reqId -> requestTargetAt s' r = requestTargetAt s r) /\
     oracleRequests s' = oracleRequests s ++
       [{| or_requestId := reqId; or_ciphertexts := [zoneRiskAt s zone];
           or_selector := Sel_decryptZoneRisk |}] /\
     events s' = events s /\
     measurementCount s' = measurementCount s /\
     encryptedMeasurements s' = encryptedMeasurements s /\
     decryptedMeasurements s' = decryptedMeasurements s /\
     encryptedZoneRisk s' = encryptedZoneRisk s /\
     zoneList s' = zoneList s) /\
  requestZoneRiskDecryption env reqId zone init = Err ZoneNotFound.
Proof.
  intros [_ Hin].
  unfold requestZoneRiskDecryption, require, mbind, result_bind, rbind.
  split; [| split; [| split]].
  - rewrite Hin. by destruct (isInitialized (zoneRiskAt s zone)).
  - intros Hnot. destruct (isInitialized (zoneRiskAt s zone)) eqn:Hi;
      [| reflexivity].
    apply Hin in Hi. contradiction.
  - intros s'. destruct (isInitialized (zoneRiskAt s zone)); simpl;
      [| discriminate].
    intros [= <-]. split; [apply requestTargetAt_set_eq |].
    split; [| by simpl].
    intros r Hr. unfold requestTargetAt; simpl. by rewrite lookup_insert_ne.
  - reflexivity.
Qed.

(** X12: a zone request and its callback fit together. After
    [requestZoneRiskDecryption] succeeded for a label, [decryptZoneRisk]
    for the same requestId, with a proof that verifies and cleartexts that
    decode, finds a label of the zone list with the hash of the requested
    label and succeeds, leaving the state as the request left it; the label
    found is the requested one when no other label of the list has its
    hash. *)
Theorem zone_request_round_trip env env' reqId zone cleartexts proof
    riskValue s s' :
  zone_inv s ->
  requestZoneRiskDecryption env reqId zone s = Ok s' ->
  checkSignatures reqId cleartexts proof = true ->
  abi_decode_uint32 cleartexts = Some riskValue ->
  exists zone',
    decryptZoneRisk_locals reqId cleartexts proof s' = Ok (zone', riskValue) /\
    zone' ∈ zoneList s /\
    keccak256 zone' = keccak256 zone /\
    ((forall z, z ∈ zoneList s -> keccak256 z = keccak256 zone -> z = zone) ->
     zone' = zone) /\
    decryptZoneRisk env' reqId cleartexts proof s' = Ok s'.
Proof.
  intros [_ Hin] Hreq Hsig Hdec.
  assert (Hzone : zone ∈ zoneList s).
  { apply Hin. revert Hreq.
    unfold requestZoneRiskDecryption, require, mbind, result_bind, rbind.
    by destruct (isInitialized (zoneRiskAt s zone)). }
  assert (Hs' : requestTargetAt s' reqId = keccak256 zone /\
                zoneList s' = zoneList s).
  { revert Hreq.
    unfold requestZoneRiskDecryption, require, mbind, result_bind, rbind.
    destruct (isInitialized (zoneRiskAt s zone)); simpl; [| discriminate].
    intros [= <-]. split; [apply requestTargetAt_set_eq | reflexivity]. }
  destruct Hs' as [Htarget Hlist].
  destruct (getZoneFromHash (requestTargetAt s' reqId) s')
    as [zone' | e] eqn:Hfind.
  - pose proof Hfind as Hfound.
    apply getZoneFromHash_from_Ok in Hfound
      as (before & after & Hl & Hh & _).
    assert (Hmem : zone' ∈ zoneList s).
    { rewrite <- Hlist, Hl, elem_of_app, elem_of_cons. auto. }
    assert (Hloc : decryptZoneRisk_locals reqId cleartexts proof s' =
                   Ok (zone', riskValue)).
    { unfold decryptZoneRisk_locals, mbind, result_bind, rbind.
      by rewrite Hfind, Hsig, Hdec. }
    exists zone'. rewrite Htarget in Hh.
    split; [exact Hloc |]. split; [exact Hmem |]. split; [exact Hh |].
    split; [intros Hinj; by apply Hinj |].
    unfold decryptZoneRisk, mbind, result_bind, rbind. by rewrite Hloc.
  - apply getZoneFromHash_from_Err in Hfind as [_ Hnone].
    rewrite Hlist, Htarget in Hnone.
    rewrite Forall_forall in Hnone. by destruct (Hnone zone Hzone).
Qed.

End ZoneRequests.

(** ** Calls in a row *)

Section Lifecycle.

Context {E : Externals}.

Lemma requestMeasurementDecryption_pending env reqId measurementId s :
  isDecrypted (decryptedMeasurementAt s measurementId) = false ->
  requestMeasurementDecryption env reqId measurementId s =
  Ok (emit (DecryptionRequested measurementId)
        (setRequestTarget reqId measurementId
           (recordOracleRequest
              {| or_requestId := reqId;
                 or_ciphertexts :=
                   [encryptedTemperature (encryptedMeasurementAt s measurementId);
                    encryptedGasLevel (encryptedMeasurementAt s measurementId)];
                 or_selector := Sel_decryptMeasurement |} s))).
Proof.
  intros Hp.
  unfold requestMeasurementDecryption, onlyResearcher, require,
    mbind, result_bind, rbind.
  rewrite Hp. reflexivity.
Qed.

Lemma requestMeasurementDecryption_decrypted env reqId measurementId s :
  isDecrypted (decryptedMeasurementAt s measurementId) = true ->
  requestMeasurementDecryption env reqId measurementId s = Err AlreadyDecrypted.
Proof.
  intros Hd.
  unfold requestMeasurementDecryption, onlyResearcher, require,
    mbind, result_bind, rbind.
  rewrite Hd. reflexivity.
Qed.

(** X13: the whole life of a measurement. From a state whose count is below
    the top of [uint256]: a submission creates the next id; a request for
    that id hands the two submitted handles to the engine; the callback of
    that request, with a proof that verifies and two decoded values, stores
    the two values with the flag set and leaves the handles of the record
    alone; after that a new request for the id is refused with "Already
    decrypted". *)
Theorem submit_request_decrypt_lifecycle env encTemperature encGasLevel
    reqId reqId' cleartexts proof t g rest s :
  0 <= measurementCount s ->
  measurementCount s + 1 <= Solidity.uint256_max ->
  checkSignatures reqId cleartexts proof = true ->
  abi_decode_int32_array cleartexts = Some (t :: g :: rest) ->
  exists s1 s2 s3,
    submitEncryptedMeasurement env encTemperature encGasLevel s = Ok s1 /\
    measurementCount s1 = measurementCount s + 1 /\
    requestMeasurementDecryption env reqId (measurementCount s1) s1 = Ok s2 /\
    or_ciphertexts <$> last (oracleRequests s2) =
      Some [encTemperature; encGasLevel] /\
    decryptMeasurement env reqId cleartexts proof s2 = Ok s3 /\
    getDecryptedMeasurement (measurementCount s1) s3 = (t, g, true) /\
    encryptedMeasurements s3 !! measurementCount s1 =
      Some {| em_id := measurementCount s1;
              encryptedTemperature := encTemperature;
              encryptedGasLevel := encGasLevel;
              timestamp := block_timestamp env |} /\
    requestMeasurementDecryption env reqId' (measurementCount s1) s3 =
      Err AlreadyDecrypted.
Proof.
  intros H0 Hle Hsig Hdec.
  set (s1 := submitted_state env encTemperature encGasLevel s).
  assert (Hn : measurementCount s1 = measurementCount s + 1) by reflexivity.
  assert (Hrec : encryptedMeasurements s1 !! (measurementCount s + 1) =
                 Some {| em_id := measurementCount s + 1;
                         encryptedTemperature := encTemperature;
                         encryptedGasLevel := encGasLevel;
                         timestamp := block_timestamp env |}).
  { unfold s1, submitted_state; simpl. apply lookup_insert_eq. }
  assert (Hp : isDecrypted (decryptedMeasurementAt s1 (measurementCount s + 1))
               = false).
  { unfold s1, submitted_state, decryptedMeasurementAt; simpl.
    by rewrite lookup_insert_eq. }
  pose proof (requestMeasurementDecryption_pending env reqId _ s1 Hp) as Hreq.
  set (s2 := emit (DecryptionRequested (measurementCount s + 1)) _) in Hreq.
  assert (Ht : requestTargetAt s2 reqId = measurementCount s + 1).
  { unfold s2. apply requestTargetAt_set_eq. }
  assert (Hacc : decryptMeasurement env reqId cleartexts proof s2 =
                 Ok (decrypted_state (measurementCount s + 1) t g s2)).
  { rewrite (decryptMeasurement_accepts env _ _ _ s2 t g rest);
      [by rewrite Ht | rewrite Ht; lia | done | done]. }
  exists s1, s2, (decrypted_state (measurementCount s + 1) t g s2).
  rewrite Hn.
  split; [by apply submitEncryptedMeasurement_below |].
  split; [reflexivity |]. split; [exact Hreq |]. split.
  { unfold s2; simpl. rewrite last_snoc; simpl.
    unfold encryptedMeasurementAt. by rewrite Hrec. }
  split; [exact Hacc |]. split.
  { unfold getDecryptedMeasurement. rewrite decrypted_state_record.
    by rewrite decide_True. }
  split.
  { rewrite (proj2 (decrypted_state_encrypted _ t g s2)). exact Hrec. }
  apply requestMeasurementDecryption_decrypted.
  rewrite decrypted_state_record. by rewrite decide_True.
Qed.


(** X15: a decryption that comes before the submission is lost. The
    contract accepts a request, and then its callback, for the id that the
    next submission will get; the record of that id then reads as
    decrypted. The submission that creates the id sets the record back to
    (0, 0, false), while every bucket keeps what the callback counted. *)
Theorem submission_resets_an_early_decryption env reqId encTemperature
    encGasLevel cleartexts proof t g rest s :
  0 <= measurementCount s ->
  measurementCount s + 1 <= Solidity.uint256_max ->
  isDecrypted (decryptedMeasurementAt s (measurementCount s + 1)) = false ->
  checkSignatures reqId cleartexts proof = true ->
  abi_decode_int32_array cleartexts = Some (t :: g :: rest) ->
  exists s1 s2 s3,
    requestMeasurementDecryption env reqId (measurementCount s + 1) s = Ok s1 /\
    decryptMeasurement env reqId cleartexts proof s1 = Ok s2 /\
    getDecryptedMeasurement (measurementCount s + 1) s2 = (t, g, true) /\
    submitEncryptedMeasurement env encTemperature encGasLevel s2 = Ok s3 /\
    measurementCount s3 = measurementCount s + 1 /\
    getDecryptedMeasurement (measurementCount s + 1) s3 = (0, 0, false) /\
    (forall zone, zoneRiskAt s3 zone = zoneRiskAt s2 zone).
Proof.
  intros H0 Hle Hp Hsig Hdec.
  pose proof (requestMeasurementDecryption_pending env reqId _ s Hp) as Hreq.
  set (s1 := emit (DecryptionRequested (measurementCount s + 1)) _) in Hreq.
  assert (Ht : requestTargetAt s1 reqId = measurementCount s + 1)
    by (unfold s1; apply requestTargetAt_set_eq).
  assert (Hacc : decryptMeasurement env reqId cleartexts proof s1 =
                 Ok (decrypted_state (measurementCount s + 1) t g s1)).
  { rewrite (decryptMeasurement_accepts env _ _ _ s1 t g rest);
      [by rewrite Ht | rewrite Ht; lia | done | done]. }
  set (s2 := decrypted_state (measurementCount s + 1) t g s1) in *.
  assert (Hn : measurementCount s2 = measurementCount s).
  { unfold s2. by rewrite (proj1 (decrypted_state_encrypted _ t g s1)). }
  exists s1, s2, (submitted_state env encTemperature encGasLevel s2).
  split; [exact Hreq |]. split; [exact Hacc |]. split.
  { unfold s2, getDecryptedMeasurement. rewrite decrypted_state_record.
    by rewrite decide_True. }
  split; [apply submitEncryptedMeasurement_below; by rewrite Hn |].
  split; [cbn [submitted_state emit measurementCount setDecryptedMeasurement
               setEncryptedMeasurement setMeasurementCount]; by rewrite Hn |].
  split.
  - unfold submitted_state, getDecryptedMeasurement, decryptedMeasurementAt;
      cbn [emit decryptedMeasurements setDecryptedMeasurement].
    rewrite Hn. by rewrite lookup_insert_eq.
  - reflexivity.
Qed.

End Lifecycle.

(** ** The dashboard *)



(** ** What a created record keeps *)

Section Kept.

Context {E : Externals}.

(** X19: once an id is created, no run of transactions changes what the
    registry stores under it (the two handles and the submission time),
    removes its decrypted-side record, takes the id out of the created
    range or clears a flag that is set. *)
Theorem created_records_are_kept (txs : list (Env * Call)) (s : State)
    (measurementId : Z) :
  created s measurementId ->
  created (run txs s) measurementId /\
  encryptedMeasurements (run txs s) !! measurementId =
    encryptedMeasurements s !! measurementId /\
  encryptedMeasurementAt (run txs s) measurementId =
    encryptedMeasurementAt s measurementId /\
  (is_Some (decryptedMeasurements s !! measurementId) ->
   is_Some (decryptedMeasurements (run txs s) !! measurementId)) /\
  (isDecrypted (decryptedMeasurementAt s measurementId) = true ->
   isDecrypted (decryptedMeasurementAt (run txs s) measurementId) = true).
Proof.
  intros Hc.
  destruct (run_created_stable txs s measurementId Hc) as (Hc' & He & Hd & Hf).
  split; [exact Hc' |]. split; [exact He |].
  split; [unfold encryptedMeasurementAt; by rewrite He |].
  split; assumption.
Qed.

End Kept.

(** ** When the callbacks succeed *)

Section CallbackOutcomes.

Context {E : Externals}.

(** X17: [decryptMeasurement] succeeds exactly when the value recorded for
    the requestId is not zero, the proof verifies and the cleartexts decode
    to at least two values. With a known request and a verified proof,
    cleartexts that do not decode revert at the decoder and cleartexts that
    decode to fewer than two values revert with the index panic; when it
    succeeds, the state it ends in depends on the first two decoded values
    only. *)
Theorem decryptMeasurement_succeeds_exactly_when env requestId cleartexts
    proof s :
  (isOk (decryptMeasurement env requestId cleartexts proof s) = true <->
   requestTargetAt s requestId <> 0 /\
   checkSignatures requestId cleartexts proof = true /\
   exists t g rest, abi_decode_int32_array cleartexts = Some (t :: g :: rest)) /\
  (requestTargetAt s requestId <> 0 ->
   checkSignatures requestId cleartexts proof = true ->
   abi_decode_int32_array cleartexts = None ->
   decryptMeasurement env requestId cleartexts proof s = Err DecodeError) /\
  (forall results,
     requestTargetAt s requestId <> 0 ->
     checkSignatures requestId cleartexts proof = true ->
     abi_decode_int32_array cleartexts = Some results ->
     (length results < 2)%nat ->
     decryptMeasurement env requestId cleartexts proof s =
       Err (Panic Solidity.panic_index)) /\
  (forall s' t g rest,
     decryptMeasurement env requestId cleartexts proof s = Ok s' ->
     abi_decode_int32_array cleartexts = Some (t :: g :: rest) ->
     s' = decrypted_state (requestTargetAt s requestId) t g s).
Proof.
  split; [| split; [| split]].
  - split.
    + destruct (decryptMeasurement env requestId cleartexts proof s)
        as [s' |] eqn:Hok; [| discriminate].
      intros _.
      apply decryptMeasurement_Ok in Hok as (t & g & rest & ? & ? & ? & _).
      eauto 10.
    + intros (Hid & Hsig & t & g & rest & Hdec).
      by rewrite (decryptMeasurement_accepts env _ _ _ s t g rest Hid Hsig Hdec).
  - intros Hid Hsig Hdec.
    unfold decryptMeasurement, mbind, result_bind, rbind, require.
    destruct (Z.eqb_spec (requestTargetAt s requestId) 0); [done |]. simpl.
    by rewrite Hsig, Hdec.
  - intros results Hid Hsig Hdec Hlen.
    unfold decryptMeasurement, mbind, result_bind, rbind, require.
    destruct (Z.eqb_spec (requestTargetAt s requestId) 0); [done |]. simpl.
    rewrite Hsig, Hdec.
    destruct results as [| t [| g rest]]; simpl in *; [done | done | lia].
  - intros s' t g rest Hok Hdec.
    apply decryptMeasurement_Ok in Hok as (t' & g' & rest' & _ & _ & Hdec' & ->).
    rewrite Hdec in Hdec'. by injection Hdec' as <- <- _.
Qed.

(** X18: [decryptZoneRisk] succeeds exactly when a label of the zone list
    hashes to the value recorded for the requestId, the proof verifies and
    the cleartexts decode. The search comes first: without such a label the
    revert is "Zone not found" whatever the proof is; with one, a proof
    that does not verify reverts at the signature check, and cleartexts
    that do not decode revert at the decoder. *)
Theorem decryptZoneRisk_succeeds_exactly_when env requestId cleartexts
    proof s :
  (isOk (decryptZoneRisk env requestId cleartexts proof s) = true <->
   (exists zone, zone ∈ zoneList s /\
                 keccak256 zone = requestTargetAt s requestId) /\
   checkSignatures requestId cleartexts proof = true /\
   is_Some (abi_decode_uint32 cleartexts)) /\
  ((forall zone, zone ∈ zoneList s ->
                 keccak256 zone <> requestTargetAt s requestId) ->
   decryptZoneRisk env requestId cleartexts proof s = Err ZoneNotFound) /\
  (forall zone,
     zone ∈ zoneList s -> keccak256 zone = requestTargetAt s requestId ->
     (checkSignatures requestId cleartexts proof = false ->
      decryptZoneRisk env requestId cleartexts proof s = Err InvalidProof) /\
     (checkSignatures requestId cleartexts proof = true ->
      abi_decode_uint32 cleartexts = None ->
      decryptZoneRisk env requestId cleartexts proof s = Err DecodeError)).
Proof.
  assert (Hfound : forall zone,
    zone ∈ zoneList s -> keccak256 zone = requestTargetAt s requestId ->
    exists zone', getZoneFromHash (requestTargetAt s requestId) s = Ok zone').
  { intros zone Hz Hh.
    destruct (getZoneFromHash (requestTargetAt s requestId) s) as [zone' | e]
      eqn:Hfind; [eauto |].
    apply getZoneFromHash_from_Err in Hfind as [_ Hnone].
    rewrite Forall_forall in Hnone. by destruct (Hnone zone Hz). }
  split; [| split].
  - split.
    + destruct (decryptZoneRisk env requestId cleartexts proof s)
        as [s' |] eqn:Hok; [| discriminate].
      intros _. apply decryptZoneRisk_Ok in Hok as [_ (zone & n & Hloc)].
      apply decryptZoneRisk_locals_Ok in Hloc as (Hzone & Hsig & Hdec).
      apply getZoneFromHash_from_Ok in Hzone as (before & after & Hl & Hh & _).
      split; [| split; [exact Hsig | rewrite Hdec; eauto]].
      exists zone. split; [| exact Hh].
      rewrite Hl, elem_of_app, elem_of_cons. auto.
    + intros ((zone & Hz & Hh) & Hsig & [n Hdec]).
      destruct (Hfound zone Hz Hh) as [zone' Hfind].
      unfold decryptZoneRisk, decryptZoneRisk_locals, mbind, result_bind, rbind.
      by rewrite Hfind, Hsig, Hdec.
  - intros Hnone.
    unfold decryptZoneRisk, decryptZoneRisk_locals, getZoneFromHash,
      mbind, result_bind, rbind.
    rewrite getZoneFromHash_from_none; [reflexivity |].
    by apply Forall_forall.
  - intros zone Hz Hh. destruct (Hfound zone Hz Hh) as [zone' Hfind].
    unfold decryptZoneRisk, decryptZoneRisk_locals, mbind, result_bind, rbind.
    rewrite Hfind. split.
    + by intros ->.
    + by intros -> ->.
Qed.

End CallbackOutcomes.

(** ** The further theorems at work *)

Lemma sample_run_zone_inv : zone_inv Toy.decrypted_once.
Proof.
  assert (Hrun : Toy.decrypted_once =
    run [(Toy.env, Call_submitEncryptedMeasurement 1001 1002);
         (Toy.env, Call_requestMeasurementDecryption 1 1);
         (Toy.env, Call_requestMeasurementDecryption 2 1);
         (Toy.env, Call_decryptMeasurement 1 Toy.cold Toy.good_proof)] init)
    by (vm_compute; reflexivity).
  rewrite Hrun. apply (run_zone_inv (HS := Toy.sound)), init_zone_inv.
Qed.

Lemma submit_assigns_next_id_witness :
  measurementCount init + 1 <= Solidity.uint256_max /\
  exists s',
    submitEncryptedMeasurement Toy.env 1001 1002 init = Ok s' /\
    measurementCount s' = measurementCount init + 1.
Proof.
  assert (Hle : measurementCount init + 1 <= Solidity.uint256_max)
    by (vm_compute; discriminate).
  split; [exact Hle |].
  destruct (submit_assigns_next_id Toy.env 1001 1002 init Hle)
    as (s' & Hok & Hn & _).
  exists s'. split; assumption.
Defined.

Lemma flag_is_set_only_by_a_verified_callback_witness :
  isDecrypted (decryptedMeasurementAt Toy.requested_twice 1) = false /\
  isDecrypted
    (decryptedMeasurementAt
       (step Toy.env (Call_decryptMeasurement 1 Toy.cold Toy.good_proof)
          Toy.requested_twice) 1) = true /\
  exists requestId cleartexts proof,
    Call_decryptMeasurement 1 Toy.cold Toy.good_proof =
      Call_decryptMeasurement requestId cleartexts proof /\
    requestTargetAt Toy.requested_twice requestId = 1 /\
    checkSignatures requestId cleartexts proof = true.
Proof.
  assert (Hbefore :
    isDecrypted (decryptedMeasurementAt Toy.requested_twice 1) = false)
    by reflexivity.
  assert (Hafter :
    isDecrypted
      (decryptedMeasurementAt
         (step Toy.env (Call_decryptMeasurement 1 Toy.cold Toy.good_proof)
            Toy.requested_twice) 1) = true)
    by (vm_compute; reflexivity).
  split; [exact Hbefore |]. split; [exact Hafter |].
  destruct (flag_is_set_only_by_a_verified_callback Toy.env _ _ 1
              Hbefore Hafter)
    as (r & cl & p & t & g & rest & Hc & Ht & _ & Hsig & _).
  exists r, cl, p. split; [exact Hc |]. split; assumption.
Defined.

Lemma callback_counts_in_one_bucket_witness :
  decryptMeasurement Toy.env 1 Toy.cold Toy.good_proof Toy.requested_twice =
    Ok Toy.decrypted_once /\
  abi_decode_int32_array Toy.cold = Some [-5; 3] /\
  @zoneCount Toy.externals Toy.sound Toy.decrypted_once (assignZone (-5) 3) =
    (@zoneCount Toy.externals Toy.sound Toy.requested_twice (assignZone (-5) 3)
     + 1) mod 2 ^ 32 /\
  decrypted_events (events Toy.decrypted_once) =
    S (decrypted_events (events Toy.requested_twice)).
Proof.
  assert (Hok : decryptMeasurement Toy.env 1 Toy.cold Toy.good_proof
                  Toy.requested_twice = Ok Toy.decrypted_once)
    by (vm_compute; reflexivity).
  assert (Hdec : abi_decode_int32_array Toy.cold = Some [-5; 3])
    by reflexivity.
  split; [exact Hok |]. split; [exact Hdec |].
  destruct (callback_counts_in_one_bucket (HS := Toy.sound) Toy.env 1 Toy.cold
              Toy.good_proof Toy.requested_twice Toy.decrypted_once (-5) 3 []
              Hok Hdec) as (Hcount & _ & _ & Hev).
  split; assumption.
Defined.

Lemma requestZoneRiskDecryption_outcome_witness :
  zone_inv Toy.decrypted_once /\
  (isOk (requestZoneRiskDecryption Toy.env 3 "LowRisk" Toy.decrypted_once) = true
   <-> "LowRisk" ∈ zoneList Toy.decrypted_once) /\
  requestZoneRiskDecryption Toy.env 3 "LowRisk" init = Err ZoneNotFound.
Proof.
  split; [exact sample_run_zone_inv |].
  destruct (requestZoneRiskDecryption_outcome Toy.env 3 "LowRisk"
              Toy.decrypted_once sample_run_zone_inv) as (Hiff & _ & _ & Hinit).
  split; assumption.
Defined.

Lemma zone_request_round_trip_witness :
  zone_inv Toy.decrypted_once /\
  requestZoneRiskDecryption Toy.env 3 "LowRisk" Toy.decrypted_once =
    Ok Toy.zone_requested /\
  checkSignatures 3 [x02] Toy.good_proof = true /\
  abi_decode_uint32 [x02] = Some 2 /\
  exists zone',
    decryptZoneRisk_locals 3 [x02] Toy.good_proof Toy.zone_requested =
      Ok (zone', 2) /\
    keccak256 zone' = keccak256 "LowRisk".
Proof.
  assert (Hreq : requestZoneRiskDecryption Toy.env 3 "LowRisk"
                   Toy.decrypted_once = Ok Toy.zone_requested)
    by (vm_compute; reflexivity).
  assert (Hsig : checkSignatures 3 [x02] Toy.good_proof = true)
    by reflexivity.
  assert (Hdec : abi_decode_uint32 [x02] = Some 2) by reflexivity.
  split; [exact sample_run_zone_inv |]. split; [exact Hreq |].
  split; [exact Hsig |]. split; [exact Hdec |].
  destruct (zone_request_round_trip Toy.env Toy.env 3 "LowRisk" [x02]
              Toy.good_proof 2 Toy.decrypted_once Toy.zone_requested
              sample_run_zone_inv Hreq Hsig Hdec)
    as (zone' & Hloc & _ & Hh & _).
  exists zone'. split; assumption.
Defined.

Lemma submit_request_decrypt_lifecycle_witness :
  0 <= measurementCount init /\
  measurementCount init + 1 <= Solidity.uint256_max /\
  checkSignatures 1 Toy.cold Toy.good_proof = true /\
  abi_decode_int32_array Toy.cold = Some [-5; 3] /\
  exists s1 s2 s3,
    submitEncryptedMeasurement Toy.env 1001 1002 init = Ok s1 /\
    requestMeasurementDecryption Toy.env 1 (measurementCount s1) s1 = Ok s2 /\
    decryptMeasurement Toy.env 1 Toy.cold Toy.good_proof s2 = Ok s3 /\
    getDecryptedMeasurement (measurementCount s1) s3 = (-5, 3, true) /\
    requestMeasurementDecryption Toy.env 2 (measurementCount s1) s3 =
      Err AlreadyDecrypted.
Proof.
  assert (H0 : 0 <= measurementCount init) by (vm_compute; discriminate).
  assert (Hle : measurementCount init + 1 <= Solidity.uint256_max)
    by (vm_compute; discriminate).
  assert (Hsig : checkSignatures 1 Toy.cold Toy.good_proof = true)
    by reflexivity.
  assert (Hdec : abi_decode_int32_array Toy.cold = Some [-5; 3])
    by reflexivity.
  split; [exact H0 |]. split; [exact Hle |]. split; [exact Hsig |].
  split; [exact Hdec |].
  destruct (submit_request_decrypt_lifecycle Toy.env 1001 1002 1 2 Toy.cold
              Toy.good_proof (-5) 3 [] init H0 Hle Hsig Hdec)
    as (s1 & s2 & s3 & Hs & _ & Hr & _ & Hd & Hget & _ & Hagain).
  exists s1, s2, s3. repeat (split; [assumption |]). assumption.
Defined.


Lemma submission_resets_an_early_decryption_witness :
  0 <= measurementCount init /\
  measurementCount init + 1 <= Solidity.uint256_max /\
  isDecrypted (decryptedMeasurementAt init (measurementCount init + 1)) = false /\
  checkSignatures 1 Toy.cold Toy.good_proof = true /\
  abi_decode_int32_array Toy.cold = Some [-5; 3] /\
  exists s2 s3,
    getDecryptedMeasurement (measurementCount init + 1) s2 = (-5, 3, true) /\
    submitEncryptedMeasurement Toy.env 1001 1002 s2 = Ok s3 /\
    getDecryptedMeasurement (measurementCount init + 1) s3 = (0, 0, false).
Proof.
  assert (H0 : 0 <= measurementCount init) by (vm_compute; discriminate).
  assert (Hle : measurementCount init + 1 <= Solidity.uint256_max)
    by (vm_compute; discriminate).
  assert (Hsig : checkSignatures 1 Toy.cold Toy.good_proof = true)
    by reflexivity.
  assert (Hdec : abi_decode_int32_array Toy.cold = Some [-5; 3])
    by reflexivity.
  split; [exact H0 |]. split; [exact Hle |]. split; [reflexivity |].
  split; [exact Hsig |]. split; [exact Hdec |].
  destruct (submission_resets_an_early_decryption Toy.env 1 1001 1002 Toy.cold
              Toy.good_proof (-5) 3 [] init H0 Hle eq_refl Hsig Hdec)
    as (s1 & s2 & s3 & _ & _ & Hget & Hs & _ & Hreset & _).
  exists s2, s3. repeat (split; [assumption |]). assumption.
Defined.

Lemma created_records_are_kept_witness :
  created Toy.requested_twice 1 /\
  encryptedMeasurements
    (run [(Toy.env, Call_decryptMeasurement 1 Toy.cold Toy.good_proof);
          (Toy.env, Call_decryptMeasurement 2 Toy.warm Toy.good_proof);
          (Toy.env, Call_submitEncryptedMeasurement 2001 2002)]
       Toy.requested_twice) !! 1 =
    encryptedMeasurements Toy.requested_twice !! 1.
Proof.
  assert (Hc : created Toy.requested_twice 1)
    by (split; vm_compute; discriminate).
  split; [exact Hc |].
  destruct (created_records_are_kept (E := Toy.externals)
              [(Toy.env, Call_decryptMeasurement 1 Toy.cold Toy.good_proof);
               (Toy.env, Call_decryptMeasurement 2 Toy.warm Toy.good_proof);
               (Toy.env, Call_submitEncryptedMeasurement 2001 2002)]
              Toy.requested_twice 1 Hc) as (_ & He & _).
  exact He.
Defined.
